(** * ptelastic: a shallow embedding of the Elasticsearch probes

    The probes of [ptelastic/modules] are Python methods that send HTTP
    requests through an injected client, read the response (status code,
    headers, body text, decoded JSON), print lines through [ptprint] and
    record nodes and vulnerabilities through [ptjsonlib].  They are embedded
    here as computations in a small state-and-exception monad over a [world]
    that logs every call made to those collaborators. *)

From Stdlib Require Import String Ascii List ZArith Bool Lia.
Import ListNotations.
Open Scope string_scope.
Open Scope nat_scope.
Set Warnings "-register-all".

(** ** Python values and exceptions *)

(** The values [json.loads] produces.  A number keeps its literal text (nothing
    here computes with numbers); a [dict] keeps its items in insertion
    order with distinct keys. *)
Inductive value : Type :=
| VNone
| VBool (b : bool)
| VNum (literal : string)
| VStr (s : string)
| VList (items : list value)
| VDict (items : list (string * value)).

(** The values a [dict] accepts as keys. *)
Inductive hashable : Type :=
| HNone
| HBool (b : bool)
| HNum (literal : string)
| HStr (s : string).

(** The subscript a [KeyError] reports: a key, or a literal index. *)
Inductive key : Type :=
| KHash (h : hashable)
| KInt (i : nat).

(** The exceptions the modelled code can meet; all of them derive from
    Python's [Exception]. *)
Inductive exn : Type :=
| KeyError (k : key)
| IndexError
| TypeError
| AttributeError
| JSONDecodeError
| RequestException.

Inductive result (A : Type) : Type :=
| Ok (a : A)
| Raise (e : exn).
Arguments Ok {A} a.
Arguments Raise {A} e.

Definition rbind {A B : Type} (r : result A) (f : A -> result B) : result B :=
  match r with
  | Ok a => f a
  | Raise e => Raise e
  end.

(** ** Strings *)

(** [str.lower] on the ASCII letters; the other characters are kept. *)
Definition lower_ascii (c : ascii) : ascii :=
  let n := nat_of_ascii c in
  if andb (65 <=? n) (n <=? 90) then ascii_of_nat (n + 32) else c.

Fixpoint lower (s : string) : string :=
  match s with
  | EmptyString => EmptyString
  | String c t => String (lower_ascii c) (lower t)
  end.

(** [str.upper] on the ASCII letters. *)
Definition upper_ascii (c : ascii) : ascii :=
  let n := nat_of_ascii c in
  if andb (97 <=? n) (n <=? 122) then ascii_of_nat (n - 32) else c.

Fixpoint upper (s : string) : string :=
  match s with
  | EmptyString => EmptyString
  | String c t => String (upper_ascii c) (upper t)
  end.

(** [needle in hay] on two strings. *)
Fixpoint contains (needle hay : string) : bool :=
  if String.prefix needle hay then true
  else match hay with
       | EmptyString => false
       | String _ t => contains needle t
       end.

(** The double quote character, and a way to write JSON texts in this file:
    [dq] turns every apostrophe of its argument into a double quote. *)
Definition dquote : ascii := ascii_of_nat 34.

Fixpoint dq (s : string) : string :=
  match s with
  | EmptyString => EmptyString
  | String c t => String (if Ascii.eqb c "'"%char then dquote else c) (dq t)
  end.

(** ** Dictionaries and subscripts *)

Fixpoint dict_get {A : Type} (d : list (string * A)) (k : string) : option A :=
  match d with
  | [] => None
  | (k', v) :: t => if String.eqb k' k then Some v else dict_get t k
  end.

(** [d[k] = v]: an existing key keeps its place, a new one goes last. *)
Fixpoint dict_set {A : Type} (d : list (string * A)) (k : string) (v : A)
  : list (string * A) :=
  match d with
  | [] => [(k, v)]
  | (k', v') :: t =>
      if String.eqb k' k then (k', v) :: t else (k', v') :: dict_set t k v
  end.

(** [v[k]] for a string [k]. *)
Definition getitem (v : value) (k : string) : result value :=
  match v with
  | VDict d =>
      match dict_get d k with
      | Some x => Ok x
      | None => Raise (KeyError (KHash (HStr k)))
      end
  | _ => Raise TypeError
  end.

(** [v[i]] for a non-negative integer [i].  The keys of a decoded JSON object
    are strings, so an integer subscript on a [dict] finds nothing. *)
Definition getitem_int (v : value) (i : nat) : result value :=
  match v with
  | VDict _ => Raise (KeyError (KInt i))
  | VList l =>
      match nth_error l i with
      | Some x => Ok x
      | None => Raise IndexError
      end
  | VStr s =>
      match String.get i s with
      | Some c => Ok (VStr (String c EmptyString))
      | None => Raise IndexError
      end
  | _ => Raise TypeError
  end.

(** [v == s] for a string literal [s]: true on the equal [str] only. *)
Definition eq_str (v : value) (s : string) : bool :=
  match v with
  | VStr s' => String.eqb s' s
  | _ => false
  end.

(** [iter(v)]: the elements of a list, the keys of a dict, the characters of
    a string. *)
Definition iterate (v : value) : result (list value) :=
  match v with
  | VList l => Ok l
  | VDict d => Ok (map (fun kv => VStr (fst kv)) d)
  | VStr s => Ok (map (fun c => VStr (String c EmptyString)) (list_ascii_of_string s))
  | _ => Raise TypeError
  end.

(** ** The JSON decoder

    [json.loads] as [Response.json] uses it: one JSON value between optional
    white space, and nothing after it.  Texts are byte strings here, so a
    [\uXXXX] escape is stored as the UTF-8 bytes of its code point. *)

Definition is_ws (c : ascii) : bool :=
  match nat_of_ascii c with
  | 32 | 9 | 10 | 13 => true
  | _ => false
  end.

Fixpoint skip_ws (s : list ascii) : list ascii :=
  match s with
  | c :: t => if is_ws c then skip_ws t else s
  | [] => []
  end.

Definition is_digit (c : ascii) : bool :=
  let n := nat_of_ascii c in andb (48 <=? n) (n <=? 57).

Definition hex_digit (c : ascii) : option nat :=
  let n := nat_of_ascii c in
  if andb (48 <=? n) (n <=? 57) then Some (n - 48)
  else if andb (97 <=? n) (n <=? 102) then Some (n - 87)
  else if andb (65 <=? n) (n <=? 70) then Some (n - 55)
  else None.

Definition hex4 (a b c d : ascii) : option nat :=
  match hex_digit a, hex_digit b, hex_digit c, hex_digit d with
  | Some x, Some y, Some z, Some w => Some (x * 4096 + y * 256 + z * 16 + w)
  | _, _, _, _ => None
  end.

Definition utf8 (n : nat) : list ascii :=
  if n <? 128 then [ascii_of_nat n]
  else if n <? 2048 then
    [ascii_of_nat (192 + n / 64); ascii_of_nat (128 + n mod 64)]
  else
    [ascii_of_nat (224 + n / 4096); ascii_of_nat (128 + (n / 64) mod 64);
     ascii_of_nat (128 + n mod 64)].

Definition escape (c : ascii) : option ascii :=
  match c with
  | "\"%char => Some "\"%char
  | "/"%char => Some "/"%char
  | "b"%char => Some (ascii_of_nat 8)
  | "f"%char => Some (ascii_of_nat 12)
  | "n"%char => Some (ascii_of_nat 10)
  | "r"%char => Some (ascii_of_nat 13)
  | "t"%char => Some (ascii_of_nat 9)
  | _ => if Ascii.eqb c dquote then Some dquote else None
  end.

(** [s] starts with the character [c]. *)
Definition head_is (c : ascii) (s : list ascii) : bool :=
  match s with
  | c' :: _ => Ascii.eqb c' c
  | [] => false
  end.

(** The characters of a string literal after its opening quote; [acc] holds
    the decoded characters, last first. *)
Fixpoint scan_string (s acc : list ascii) : option (string * list ascii) :=
  match s with
  | [] => None
  | c :: t =>
      if Ascii.eqb c dquote then Some (string_of_list_ascii (rev acc), t)
      else if Ascii.eqb c "\"%char then
        match t with
        | [] => None
        | e :: t1 =>
            if Ascii.eqb e "u"%char then
              match t1 with
              | a :: b :: c' :: d :: t2 =>
                  match hex4 a b c' d with
                  | Some n => scan_string t2 (rev (utf8 n) ++ acc)
                  | None => None
                  end
              | _ => None
              end
            else
              match escape e with
              | Some x => scan_string t1 (x :: acc)
              | None => None
              end
        end
      else if nat_of_ascii c <? 32 then None
      else scan_string t (c :: acc)
  end.

Fixpoint span_digits (s : list ascii) : list ascii * list ascii :=
  match s with
  | c :: t =>
      if is_digit c then let (ds, r) := span_digits t in (c :: ds, r)
      else ([], s)
  | [] => ([], [])
  end.

(** The parts of a number literal: an optional minus sign; then 0, or a
    digit string that does not start with 0; then an optional fraction (a
    dot and digits) and an optional exponent (e or E, an optional sign,
    digits).  The longest such prefix is taken. *)
Definition scan_sign (s : list ascii) : list ascii * list ascii :=
  if head_is "-"%char s then (["-"%char], tl s) else ([], s).

Definition scan_int (s : list ascii) : option (list ascii * list ascii) :=
  if head_is "0"%char s then Some (["0"%char], tl s)
  else match s with
       | c :: _ => if is_digit c then Some (span_digits s) else None
       | [] => None
       end.

Definition scan_frac (s : list ascii) : list ascii * list ascii :=
  if head_is "."%char s then
    match span_digits (tl s) with
    | ([], _) => ([], s)
    | (ds, r) => ("."%char :: ds, r)
    end
  else ([], s).

Definition scan_exp (s : list ascii) : list ascii * list ascii :=
  match s with
  | e :: t =>
      if orb (Ascii.eqb e "e"%char) (Ascii.eqb e "E"%char) then
        let (sg, t1) :=
          if head_is "+"%char t then (["+"%char], tl t)
          else if head_is "-"%char t then (["-"%char], tl t)
          else ([], t) in
        match span_digits t1 with
        | ([], _) => ([], s)
        | (ds, r) => (e :: sg ++ ds, r)
        end
      else ([], s)
  | [] => ([], [])
  end.

Definition scan_number (s : list ascii) : option (string * list ascii) :=
  let (sign, s1) := scan_sign s in
  match scan_int s1 with
  | None => None
  | Some (ip, s2) =>
      let (frac, s3) := scan_frac s2 in
      let (ex, s4) := scan_exp s3 in
      Some (string_of_list_ascii (sign ++ ip ++ frac ++ ex), s4)
  end.

Fixpoint strip_prefix (p s : list ascii) : option (list ascii) :=
  match p, s with
  | [], _ => Some s
  | a :: p', b :: s' => if Ascii.eqb a b then strip_prefix p' s' else None
  | _ :: _, [] => None
  end.

Definition scan_word (word : string) (v : value) (s : list ascii)
  : option (value * list ascii) :=
  option_map (fun r => (v, r)) (strip_prefix (list_ascii_of_string word) s).

Definition scan_constant (s : list ascii) : option (value * list ascii) :=
  match scan_word "null" VNone s with
  | Some x => Some x
  | None =>
  match scan_word "true" (VBool true) s with
  | Some x => Some x
  | None =>
  match scan_word "false" (VBool false) s with
  | Some x => Some x
  | None =>
  match scan_word "NaN" (VNum "NaN") s with
  | Some x => Some x
  | None =>
  match scan_word "Infinity" (VNum "Infinity") s with
  | Some x => Some x
  | None => scan_word "-Infinity" (VNum "-Infinity") s
  end end end end end.

(** A value that is neither an object nor an array. *)
Definition scan_scalar (s : list ascii) : option (value * list ascii) :=
  if head_is dquote s then
    option_map (fun p => (VStr (fst p), snd p)) (scan_string (tl s) [])
  else
    match scan_constant s with
    | Some x => Some x
    | None => option_map (fun p => (VNum (fst p), snd p)) (scan_number s)
    end.

(** One value at the head of [s] (no leading white space), and the rest of
    the text.  [fuel] bounds the number of nested calls; twice the length of
    the text is enough ([json_loads_fuel] below). *)
Fixpoint scan_value (fuel : nat) (s : list ascii) : option (value * list ascii) :=
  match fuel with
  | O => None
  | S fuel' =>
      if head_is "{"%char s then
        let r := skip_ws (tl s) in
        if head_is "}"%char r then Some (VDict [], tl r)
        else scan_members fuel' r []
      else if head_is "["%char s then
        let r := skip_ws (tl s) in
        if head_is "]"%char r then Some (VList [], tl r)
        else scan_elements fuel' r []
      else scan_scalar s
  end

with scan_members (fuel : nat) (s : list ascii) (acc : list (string * value))
  : option (value * list ascii) :=
  match fuel with
  | O => None
  | S fuel' =>
      if head_is dquote s then
        match scan_string (tl s) [] with
        | Some (k, r1) =>
            let r1 := skip_ws r1 in
            if head_is ":"%char r1 then
              match scan_value fuel' (skip_ws (tl r1)) with
              | Some (v, r3) =>
                  let r3 := skip_ws r3 in
                  if head_is ","%char r3 then
                    scan_members fuel' (skip_ws (tl r3)) (dict_set acc k v)
                  else if head_is "}"%char r3 then
                    Some (VDict (dict_set acc k v), tl r3)
                  else None
              | None => None
              end
            else None
        | None => None
        end
      else None
  end

with scan_elements (fuel : nat) (s : list ascii) (acc : list value)
  : option (value * list ascii) :=
  match fuel with
  | O => None
  | S fuel' =>
      match scan_value fuel' s with
      | Some (v, r1) =>
          let r1 := skip_ws r1 in
          if head_is ","%char r1 then
            scan_elements fuel' (skip_ws (tl r1)) (acc ++ [v])
          else if head_is "]"%char r1 then Some (VList (acc ++ [v]), tl r1)
          else None
      | None => None
      end
  end.

Definition json_loads (text : string) : result value :=
  let s := list_ascii_of_string text in
  match scan_value (2 * List.length s) (skip_ws s) with
  | Some (v, r) =>
      match skip_ws r with
      | [] => Ok v
      | _ :: _ => Raise JSONDecodeError
      end
  | None => Raise JSONDecodeError
  end.

(** ** The collaborators: console printer, report sink, HTTP client *)

(** A piece of an f-string: literal text or an interpolated value. *)
Inductive frag : Type :=
| Lit (s : string)
| FInt (z : Z)
| FVal (v : value)
| FExn (e : exn).

(** One call [ptprint(text, bullet_type, condition, colortext=..., indent=...)]. *)
Record ptprint_call : Type := mk_ptprint {
  text_of : list frag;
  bullet_type : string;
  condition : bool;
  colortext : bool;
  indent : nat
}.

(** The [user_properties] dict of users.py: [roles] maps a role to the list
    of one-item dicts [{name: privileges}] appended to it. *)
Record user_properties : Type := mk_user {
  username : value;
  email : value;
  roles : list (hashable * list (string * value))
}.

(** The properties handed to [ptjsonlib.create_node_object]: a dict built
    for the node alone, or the address of a [user_properties] object that
    the probe keeps and changes after the node is recorded. *)
Inductive properties : Type :=
| Props (d : list (string * value))
| UserProps (address : nat).

Record node : Type := mk_node {
  node_type : string;
  node_properties : properties
}.

(** What the collaborators have been asked to do so far, oldest first, and
    the [user_properties] objects allocated so far, by address. *)
Record world : Type := mk_world {
  printed : list ptprint_call;
  requests : list string;
  nodes : list node;
  vulnerabilities : list string;
  heap : list user_properties
}.

Definition empty_world : world := mk_world [] [] [] [] [].

(** A response of the HTTP client.  [headers] is requests' case-insensitive
    dictionary, given by its items. *)
Record Response : Type := mk_Response {
  status_code : Z;
  headers : list (string * string);
  text : string
}.

(** The collaborators handed to a probe at construction: [args] and the HTTP
    client, which answers a GET on a URL with a response or an exception. *)
Record Args : Type := mk_Args {
  url : string;
  request_headers : list (string * string);
  verbose : bool;
  json : bool
}.

Definition http_client : Type := string -> result Response.

(** Computations that change the world and return or raise. *)
Definition M (A : Type) : Type := world -> world * result A.

Definition ret {A : Type} (a : A) : M A := fun w => (w, Ok a).

Definition raise {A : Type} (e : exn) : M A := fun w => (w, Raise e).

Definition bind {A B : Type} (m : M A) (f : A -> M B) : M B :=
  fun w =>
    match m w with
    | (w', Ok a) => f a w'
    | (w', Raise e) => (w', Raise e)
    end.

Definition lift {A : Type} (r : result A) : M A := fun w => (w, r).

Declare Scope py_scope.
Delimit Scope py_scope with py.
Notation "x <- m ;; k" := (bind m (fun x => k))
  (at level 61, m at next level, right associativity) : py_scope.
Notation "m ;;; k" := (bind m (fun _ => k))
  (at level 61, right associativity) : py_scope.
Open Scope py_scope.

(** [try: body  except E as e: handler(e)], where [catches] says which
    exceptions the clause [E] names; what [body] did before it raised stays
    done. *)
Definition try_except {A : Type} (body : M A) (catches : exn -> bool)
  (handler : exn -> M A) : M A :=
  fun w =>
    match body w with
    | (w', Raise e) => if catches e then handler e w' else (w', Raise e)
    | other => other
    end.

Definition is_KeyError (e : exn) : bool :=
  match e with
  | KeyError _ => true
  | _ => false
  end.

(** Every exception of the model is an instance of [Exception]. *)
Definition is_Exception (e : exn) : bool := true.

(** [for x in xs: body(x)]; an exception ends the loop. *)
Fixpoint for_each {A : Type} (xs : list A) (body : A -> M unit) : M unit :=
  match xs with
  | [] => ret tt
  | x :: t => body x ;;; for_each t body
  end.

Definition ptprint (msg : list frag) (bullet : string) (cond : bool)
  (color : bool) (ind : nat) : M unit :=
  fun w =>
    (mk_world (printed w ++ [mk_ptprint msg bullet cond color ind])
       (requests w) (nodes w) (vulnerabilities w) (heap w), Ok tt).

(** [http_client.send_request(url, method='GET', headers=..., allow_redirects=False)]. *)
Definition send_request (client : http_client) (u : string) : M Response :=
  fun w =>
    (mk_world (printed w) (requests w ++ [u]) (nodes w) (vulnerabilities w)
       (heap w), client u).

(** [ptjsonlib.add_node(ptjsonlib.create_node_object(ty, properties=props))]. *)
Definition add_node (ty : string) (props : properties) : M unit :=
  fun w =>
    (mk_world (printed w) (requests w) (nodes w ++ [mk_node ty props])
       (vulnerabilities w) (heap w), Ok tt).

Definition add_vulnerability (code : string) : M unit :=
  fun w =>
    (mk_world (printed w) (requests w) (nodes w) (vulnerabilities w ++ [code])
       (heap w), Ok tt).

(** [response.headers[name]]: the lookup ignores the case of the name; of two
    items with one name the later stands. *)
Fixpoint header_lookup (h : list (string * string)) (name : string)
  : option string :=
  match h with
  | [] => None
  | (k, v) :: t =>
      match header_lookup t name with
      | Some v' => Some v'
      | None => if String.eqb (lower k) (lower name) then Some v else None
      end
  end.

Definition header_getitem (h : list (string * string)) (name : string)
  : result string :=
  match header_lookup h name with
  | Some v => Ok v
  | None => Raise (KeyError (KHash (HStr name)))
  end.

(** [response.json()]. *)
Definition Response_json (r : Response) : result value := json_loads (text r).

(** ** is_elastic.py *)

Module IsElastic.

Definition msg_running : list frag := [Lit "The host is running ElasticSearch"].
Definition msg_might : list frag := [Lit "The host might be running ElasticSearch"].
Definition msg_not : list frag := [Lit "The host is not running ElasticSearch"].
Definition msg_probably_not : list frag :=
  [Lit "The host is probably not running ElasticSearch"].

Definition vuln (args : Args) (msg : list frag) : M unit :=
  ptprint msg "VULN" (negb (json args)) false 4.

Definition _check_text (response : Response) : bool :=
  contains "elasticsearch" (lower (text response)).

(** The content-type test of [run] (lines 60-66); [true] when [run]
    returns there. *)
Definition content_type_test (args : Args) (response : Response) : M bool :=
  try_except
    (ct <- lift (header_getitem (headers response) "content-type") ;;
     if negb (contains "application/json" ct)
     then vuln args msg_not ;;; ret true
     else ret false)
    is_KeyError
    (fun _ => vuln args msg_not ;;; ret true).

(** Lines 60-89 of [run]: what is printed for the response received. *)
Definition inspect (args : Args) (response : Response) : M unit :=
  returned <- content_type_test args response ;;
  if returned then ret tt
  else if (status_code response =? 401)%Z then
    response_json <- lift (Response_json response) ;;
    try_except
      (if _check_text response then vuln args msg_running
       else
         ty <- lift (rbind (getitem response_json "error") (fun e =>
                     rbind (getitem e "root_cause") (fun rc =>
                     rbind (getitem_int rc 0) (fun first =>
                     getitem first "type")))) ;;
         if eq_str ty "security_exception" then vuln args msg_might
         else ret tt)
      is_KeyError
      (fun _ => vuln args msg_probably_not)
  else if (status_code response =? 200)%Z then
    try_except
      (product <- lift (header_getitem (headers response) "X-elastic-product") ;;
       if String.eqb product "Elasticsearch" then vuln args msg_running
       else ret tt)
      is_KeyError
      (fun _ => if _check_text response then vuln args msg_running else ret tt)
  else vuln args msg_not.

Definition run (args : Args) (client : http_client) : M unit :=
  response <- send_request client (url args) ;;
  (if verbose args
   then ptprint [Lit "Sending request to: "; FVal (VStr (url args))]
          "INFO" (negb (json args)) false 4 ;;;
        ptprint [Lit "Returned response status: "; FInt (status_code response)]
          "INFO" (negb (json args)) false 4
   else ret tt) ;;;
  inspect args response.

End IsElastic.

(** ** Verdicts

    The spec names the outcome of the availability probe a verdict; the code
    prints it as a VULN line. *)
Inductive Verdict : Type :=
| Confirmed
| Likely
| NotDetected.

Definition frags_eqb (a b : list frag) : bool :=
  match a, b with
  | [Lit x], [Lit y] => String.eqb x y
  | _, _ => false
  end.

Definition verdict_of_call (c : ptprint_call) : option Verdict :=
  if negb (String.eqb (bullet_type c) "VULN") then None
  else if frags_eqb (text_of c) IsElastic.msg_running then Some Confirmed
  else if frags_eqb (text_of c) IsElastic.msg_might then Some Likely
  else if frags_eqb (text_of c) IsElastic.msg_not then Some NotDetected
  else if frags_eqb (text_of c) IsElastic.msg_probably_not then Some NotDetected
  else None.

Fixpoint verdicts (calls : list ptprint_call) : list Verdict :=
  match calls with
  | [] => []
  | c :: t =>
      match verdict_of_call c with
      | Some v => v :: verdicts t
      | None => verdicts t
      end
  end.

(** The probe run from a fresh world: the verdicts it printed when it
    returned, the exception when it raised. *)
Definition classify (args : Args) (client : http_client) : result (list Verdict) :=
  match IsElastic.run args client empty_world with
  | (w, Ok _) => Ok (verdicts (printed w))
  | (_, Raise e) => Raise e
  end.

(** ** sw.py *)

(** [s.split(sep)] for a one-character separator. *)
Fixpoint split (sep : ascii) (s : string) : list string :=
  match s with
  | EmptyString => [EmptyString]
  | String c t =>
      if Ascii.eqb c sep then EmptyString :: split sep t
      else match split sep t with
           | h :: r => String c h :: r
           | [] => [String c EmptyString]
           end
  end.

(** [v.keys()]. *)
Definition keys (v : value) : result (list value) :=
  match v with
  | VDict d => Ok (map (fun kv => VStr (fst kv)) d)
  | _ => Raise AttributeError
  end.

(** [l[i]] on a list of strings. *)
Definition item (l : list string) (i : nat) : result value :=
  match nth_error l i with
  | Some x => Ok (VStr x)
  | None => Raise IndexError
  end.

Module SwTest.

Definition error (args : Args) (msg : list frag) : M unit :=
  ptprint msg "ERROR" (negb (json args)) false 4.

Definition info (args : Args) (msg : list frag) : M unit :=
  ptprint msg "INFO" (negb (json args)) false 4.

Definition _get_es_version (args : Args) (client : http_client) : M bool :=
  response <- send_request client (url args) ;;
  if negb (status_code response =? 200)%Z then
    error args [Lit "Could not enumerate ES version. Received reponse code: ";
                FInt (status_code response)] ;;;
    ret false
  else
    response <- lift (Response_json response) ;;
    found <- try_except
      (number <- lift (rbind (getitem response "version") (fun v => getitem v "number")) ;;
       name <- lift (getitem response "name") ;;
       cluster_name <- lift (getitem response "cluster_name") ;;
       lucene <- lift (rbind (getitem response "version")
                         (fun v => getitem v "lucene_version")) ;;
       ret (Some (number, name, cluster_name, lucene)))
      is_KeyError
      (fun e =>
         error args [Lit "Error when reading JSON response. Cannot find key: ";
                     FExn e] ;;;
         ret None) ;;
    match found with
    | None => ret false
    | Some (number, name, cluster_name, lucene) =>
        let es_properties :=
          [("es_version", number); ("name", name);
           ("cluster_name", cluster_name); ("apache_lucene_version", lucene)] in
        info args [Lit "Elasticsearch version: "; FVal number] ;;;
        info args [Lit "Cluster name: "; FVal cluster_name] ;;;
        info args [Lit "Apache Lucene Version: "; FVal lucene] ;;;
        add_node "sw" (Props es_properties) ;;;
        ret true
    end.

Definition _get_modules (args : Args) (client : http_client) : M bool :=
  response <- send_request client (url args ++ "_nodes") ;;
  if negb (status_code response =? 200)%Z then
    error args [Lit "Could not enumerate modules. Received reponse code: ";
                FInt (status_code response)] ;;;
    ret false
  else
    response <- lift (Response_json response) ;;
    nodes <- lift (rbind (getitem response "nodes") keys) ;;
    for_each nodes (fun node =>
      modules <- lift (rbind (getitem response "nodes") (fun ns =>
                       match node with
                       | VStr k => rbind (getitem ns k) (fun n => getitem n "modules")
                       | _ => Raise TypeError
                       end)) ;;
      modules <- lift (iterate modules) ;;
      for_each modules (fun module =>
        name <- lift (getitem module "name") ;;
        version <- lift (getitem module "version") ;;
        description <- lift (getitem module "description") ;;
        add_node "sw" (Props [("name", name); ("version", version);
                              ("description", description)]) ;;;
        info args [Lit "Found module: "; FVal name; Lit " "; FVal version])) ;;;
    ret true.

Definition _get_plugins (args : Args) (client : http_client) : M bool :=
  response <- send_request client (url args ++ "_cat/plugins") ;;
  if negb (status_code response =? 200)%Z then
    error args [Lit "Could not enumerate plugins. Received reponse code: ";
                FInt (status_code response)] ;;;
    ret false
  else
    let plugins := map (split " ") (split (ascii_of_nat 10) (text response)) in
    plugins <- lift (match plugins with
                     | [] => Raise IndexError
                     | _ :: _ => Ok (removelast plugins)
                     end) ;;
    for_each plugins (fun plugin =>
      let plugin := filter (fun s => negb (String.eqb s EmptyString)) plugin in
      es_node <- lift (item plugin 0) ;;
      name <- lift (item plugin 1) ;;
      version <- lift (item plugin 2) ;;
      add_node "sw" (Props [("es_node", es_node); ("name", name);
                            ("version", version)]) ;;;
      info args [Lit "Found plugin: "; FVal name; Lit " "; FVal version;
                 Lit " on node: "; FVal es_node]) ;;;
    ret true.

(** One [try: x = enumeration()  except Exception as e: ptprint(...)] of
    [run]; a variable that its enumeration did not assign keeps the initial
    [False]. *)
Definition guarded (args : Args) (what : string) (enumeration : M bool) : M bool :=
  try_except enumeration is_Exception
    (fun e =>
       error args [Lit ("Error when enumerating " ++ what ++ ": "); FExn e] ;;;
       ret false).

Definition run (args : Args) (client : http_client) : M unit :=
  es_version <- guarded args "es version" (_get_es_version args client) ;;
  modules <- guarded args "modules" (_get_modules args client) ;;
  plugins <- guarded args "plugins" (_get_plugins args client) ;;
  if orb (orb plugins modules) es_version
  then add_vulnerability "PTV-WEB-MISC-TECH"
  else ret tt.

End SwTest.

(** ** users.py *)

(** [hash(v)] succeeds on the values that can be dictionary keys. *)
Definition hash_key (v : value) : result hashable :=
  match v with
  | VNone => Ok HNone
  | VBool b => Ok (HBool b)
  | VNum n => Ok (HNum n)
  | VStr s => Ok (HStr s)
  | VList _ | VDict _ => Raise TypeError
  end.

Definition value_of_hashable (h : hashable) : value :=
  match h with
  | HNone => VNone
  | HBool b => VBool b
  | HNum n => VNum n
  | HStr s => VStr s
  end.

Definition hashable_eqb (a b : hashable) : bool :=
  match a, b with
  | HNone, HNone => true
  | HBool x, HBool y => Bool.eqb x y
  | HNum x, HNum y => String.eqb x y
  | HStr x, HStr y => String.eqb x y
  | _, _ => false
  end.

(** The integer a number literal denotes, when it is an integer literal. *)
Fixpoint digits_value (s : string) (acc : Z) : option Z :=
  match s with
  | EmptyString => Some acc
  | String c t =>
      if is_digit c
      then digits_value t (10 * acc + Z.of_nat (nat_of_ascii c - 48))%Z
      else None
  end.

Definition int_of_literal (s : string) : option Z :=
  match s with
  | EmptyString => None
  | String "-" t =>
      match t with
      | EmptyString => None
      | _ => option_map Z.opp (digits_value t 0%Z)
      end
  | _ => digits_value s 0%Z
  end.

(** The index an [int] or [bool] subscript denotes. *)
Definition index_of (k : hashable) : option Z :=
  match k with
  | HBool b => Some (if b then 1 else 0)%Z
  | HNum n => int_of_literal n
  | _ => None
  end.

(** [seq[i]] for an integer [i]; a negative [i] counts from the end. *)
Definition at_index {A : Type} (l : list A) (i : Z) : result A :=
  let n := Z.of_nat (List.length l) in
  let j := if (i <? 0)%Z then (i + n)%Z else i in
  if orb (j <? 0)%Z (n <=? j)%Z then Raise IndexError
  else match nth_error l (Z.to_nat j) with
       | Some x => Ok x
       | None => Raise IndexError
       end.

(** [v[k]] for any hashable [k]. *)
Definition subscript (v : value) (k : hashable) : result value :=
  match v with
  | VDict d =>
      match k with
      | HStr s => getitem v s
      | _ => Raise (KeyError (KHash k))
      end
  | VList l =>
      match index_of k with
      | Some i => at_index l i
      | None => Raise TypeError
      end
  | VStr s =>
      match index_of k with
      | Some i =>
          rbind (at_index (list_ascii_of_string s) i)
            (fun c => Ok (VStr (String c EmptyString)))
      | None => Raise TypeError
      end
  | _ => Raise TypeError
  end.

(** [dict(pairs)]: every key is hashed; of two equal keys the later value
    stands, at the place of the first. *)
Fixpoint hdict_set {A : Type} (d : list (hashable * A)) (k : hashable) (v : A)
  : list (hashable * A) :=
  match d with
  | [] => [(k, v)]
  | (k', v') :: t =>
      if hashable_eqb k' k then (k', v) :: t else (k', v') :: hdict_set t k v
  end.

Fixpoint dict_of_pairs {A : Type} (pairs : list (value * A))
  (acc : list (hashable * A)) : result (list (hashable * A)) :=
  match pairs with
  | [] => Ok acc
  | (k, v) :: t => rbind (hash_key k) (fun h => dict_of_pairs t (hdict_set acc h v))
  end.

(** [d[k].append(x)] on a dict of lists. *)
Fixpoint hdict_append {A : Type} (d : list (hashable * list A)) (k : hashable)
  (x : A) : option (list (hashable * list A)) :=
  match d with
  | [] => None
  | (k', l) :: t =>
      if hashable_eqb k' k then Some ((k', (l ++ [x])%list) :: t)
      else option_map (cons (k', l)) (hdict_append t k x)
  end.

Fixpoint update_nth {A : Type} (l : list A) (i : nat) (x : A) : list A :=
  match l, i with
  | [], _ => []
  | _ :: t, O => x :: t
  | h :: t, S j => h :: update_nth t j x
  end.

(** A new [user_properties] object; its address is returned. *)
Definition new_user_properties (u : user_properties) : M nat :=
  fun w =>
    (mk_world (printed w) (requests w) (nodes w) (vulnerabilities w)
       (heap w ++ [u]), Ok (List.length (heap w))).

(** The object at an address.  Addresses come from [new_user_properties], so
    the lookup finds one; a stray address reads as an attribute error. *)
Definition read_user_properties (a : nat) : M user_properties :=
  fun w =>
    match nth_error (heap w) a with
    | Some u => (w, Ok u)
    | None => (w, Raise AttributeError)
    end.

(** [user_properties["roles"][role].append(entry)] on the object at [a]. *)
Definition roles_append (a : nat) (role : hashable) (entry : string * value)
  : M unit :=
  u <- read_user_properties a ;;
  match hdict_append (roles u) role entry with
  | None => raise (KeyError (KHash role))
  | Some roles' =>
      fun w =>
        (mk_world (printed w) (requests w) (nodes w) (vulnerabilities w)
           (update_nth (heap w) a (mk_user (username u) (email u) roles')),
         Ok tt)
  end.

(** [sep.join(v)]: [v] is iterated and every item must be a [str]. *)
Fixpoint join_strings (sep : string) (items : list value) : result string :=
  match items with
  | [] => Ok EmptyString
  | [VStr s] => Ok s
  | VStr s :: t => rbind (join_strings sep t) (fun r => Ok (s ++ sep ++ r)%string)
  | _ :: _ => Raise TypeError
  end.

Definition join (sep : string) (v : value) : result string :=
  rbind (iterate v) (join_strings sep).

(** The escape character of the colour codes. *)
Definition esc : string := String (ascii_of_nat 27) EmptyString.

Module Users.

Definition _check_privileges (args : Args) (role : hashable)
  (role_privileges : value) (user_properties : nat) : M unit :=
  indices <- lift (rbind (subscript role_privileges role)
                     (fun r => getitem r "indices")) ;;
  applications <- lift (rbind (subscript role_privileges role)
                          (fun r => getitem r "applications")) ;;
  indices <- lift (iterate indices) ;;
  for_each indices (fun index =>
    privileges <- lift (getitem index "privileges") ;;
    first <- lift (rbind (getitem index "names") (fun ns => getitem_int ns 0)) ;;
    index_name <- (if eq_str first "*" then ret "ALL"
                   else lift (rbind (getitem index "names") (join ", "))) ;;
    roles_append user_properties role (index_name, privileges) ;;;
    joined <- lift (join ", " privileges) ;;
    restricted <- lift (getitem index "allow_restricted_indices") ;;
    ptprint [Lit "Privileges on indices: "; Lit index_name; Lit ": ";
             Lit (upper joined); Lit "; Can edit restricted indices: ";
             FVal restricted]
      "INFO" (negb (json args)) false 12) ;;;
  applications <- lift (iterate applications) ;;
  for_each applications (fun app =>
    first <- lift (rbind (getitem app "privileges") (fun ps => getitem_int ps 0)) ;;
    privileges <- (if eq_str first "*" then ret (VStr "ALL")
                   else lift (getitem app "privileges")) ;;
    first <- lift (rbind (getitem app "privileges") (fun ps => getitem_int ps 0)) ;;
    privileges_name <-
      (if eq_str first "*" then ret "ALL"
       else lift (rbind (rbind (getitem app "privileges") (join ", "))
                    (fun s => Ok (upper s)))) ;;
    application <- lift (getitem app "application") ;;
    app_name <- (if eq_str application "*" then ret "app_ALL"
                 else match application with
                      | VStr s => ret ("app_" ++ s)%string
                      | _ => raise TypeError
                      end) ;;
    roles_append user_properties role (app_name, privileges) ;;;
    ptprint [Lit "Privileges on application: "; Lit app_name; Lit ": ";
             Lit privileges_name]
      "INFO" (negb (json args)) false 12).

(** The body of the loop of [_print_user] (lines 83-90). *)
Definition print_role (args : Args) (user_properties : nat)
  (check_roles : bool) (role_privileges : value) (role : hashable) : M unit :=
  (if hashable_eqb role (HStr "superuser")
   then ptprint [Lit (esc ++ "[0mRole: " ++ esc ++ "[31m")%string;
                 FVal (value_of_hashable role)]
          "INFO" (negb (json args)) true 8
   else ptprint [Lit "Role: "; FVal (value_of_hashable role)]
          "INFO" (negb (json args)) false 8) ;;;
  if check_roles
  then _check_privileges args role role_privileges user_properties
  else ptprint [Lit "Could not enumerate privileges"]
         "ERROR" (negb (json args)) false 4.

(** [set(user_properties["roles"])] is run over in the order of the dict;
    Python fixes no order for a set, and the dict never holds two roles. *)
Definition _print_user (args : Args) (user_properties : nat)
  (check_roles : bool) (role_privileges : value) : M unit :=
  u <- read_user_properties user_properties ;;
  ptprint [Lit "Found user: "; FVal (username u)]
    "INFO" (negb (json args)) false 4 ;;;
  ptprint [Lit "Email: "; FVal (email u)] "INFO" (negb (json args)) false 8 ;;;
  let roles := map fst (roles u) in
  for_each roles (print_role args user_properties check_roles role_privileges).

(** The body of the loop of [run] (lines 119-124). *)
Definition enumerate_user (args : Args) (users : value) (check_roles : bool)
  (response : Response) (entry : value) : M unit :=
  user <- lift (rbind (hash_key entry) (subscript users)) ;;
  roles <- lift (rbind (getitem user "roles") (fun rs =>
                 rbind (iterate rs) (fun role_names =>
                 dict_of_pairs (combine role_names [[]]) []))) ;;
  username <- lift (getitem user "username") ;;
  email <- lift (getitem user "email") ;;
  user_properties <- new_user_properties (mk_user username email roles) ;;
  add_node "user" (UserProps user_properties) ;;;
  role_privileges <- lift (Response_json response) ;;
  _print_user args user_properties check_roles role_privileges.

Definition run (args : Args) (client : http_client) : M unit :=
  response <- send_request client (url args ++ "_security/user") ;;
  if negb (status_code response =? 200)%Z then
    ptprint [Lit "Could not enumerate users. Received status code: ";
             FInt (status_code response)]
      "ERROR" (negb (json args)) false 4
  else
    users <- lift (Response_json response) ;;
    response <- send_request client (url args ++ "_security/role") ;;
    let check_roles := (status_code response =? 200)%Z in
    entries <- lift (iterate users) ;;
    for_each entries (enumerate_user args users check_roles response).

End Users.

(** ** The signals of the specification

    The spec states the availability probe over five signals read from one
    response.  They are defined here in the spec's words, to state what
    [IsElastic.run] does over them. *)
Module Signals.

(** True iff the content-type header is present and names the JSON media
    type. *)
Definition has_json_content_type (r : Response) : bool :=
  match header_lookup (headers r) "content-type" with
  | Some ct => contains "application/json" ct
  | None => false
  end.

(** The value of the product-identity header, if present. *)
Definition product_header_value (r : Response) : option string :=
  header_lookup (headers r) "X-elastic-product".

(** True iff the lower-cased body text contains the product name. *)
Definition body_mentions_product (r : Response) : bool :=
  contains "elasticsearch" (lower (text r)).

(** The [type] of the first root cause of a structured JSON error body:
    the body parses as JSON and the path error.root_cause[0].type exists
    and holds a string; absent on any missing key or other shape. *)
Definition structured_error_kind (r : Response) : option string :=
  match json_loads (text r) with
  | Ok (VDict top) =>
      match dict_get top "error" with
      | Some (VDict err) =>
          match dict_get err "root_cause" with
          | Some (VList (VDict first :: _)) =>
              match dict_get first "type" with
              | Some (VStr kind) => Some kind
              | _ => None
              end
          | _ => None
          end
      | _ => None
      end
  | _ => None
  end.

End Signals.

(** A client that answers every request with the response [r]. *)
Definition always (r : Response) : http_client := fun _ => Ok r.

(** What [IsElastic.run] prints before it looks at the content type. *)
Definition preamble (args : Args) (r : Response) : list ptprint_call :=
  if verbose args
  then [mk_ptprint [Lit "Sending request to: "; FVal (VStr (url args))]
          "INFO" (negb (json args)) false 4;
        mk_ptprint [Lit "Returned response status: "; FInt (status_code r)]
          "INFO" (negb (json args)) false 4]
  else [].

(** The world in which the response is inspected. *)
Definition after_preamble (args : Args) (r : Response) : world :=
  mk_world (preamble args r) [url args] [] [] [].


(** Responses used as concrete inputs. *)
Definition plain_args : Args := mk_Args "http://target:9200/" [] false false.

Definition json_headers : list (string * string) :=
  [("Content-Type", "application/json")].

(** Scenario A of the spec. *)
Definition scenario_A : Response :=
  mk_Response 401 [("Content-Type", "application/json; charset=utf-8")]
    (dq "{'error':{'root_cause':[{'type':'security_exception'}]}}").

(** Scenario B of the spec. *)
Definition scenario_B : Response :=
  mk_Response 200
    [("Content-Type", "application/json"); ("X-elastic-product", "Elasticsearch")]
    (dq "{'tagline':'You Know, for Search'}").

(** Scenario C of the spec. *)
Definition scenario_C : Response :=
  mk_Response 200 [("Content-Type", "text/html")]
    "<html><body>elasticsearch</body></html>".

(** Scenario D of the spec. *)
Definition scenario_D : Response :=
  mk_Response 404 json_headers (dq "{'error':'no such index','status':404}").

(** A 401 whose body is not JSON. *)
Definition unauthorized_text : Response :=
  mk_Response 401 json_headers "Unauthorized".

(** A 401 whose body is not JSON and names the product. *)
Definition unauthorized_text_naming_product : Response :=
  mk_Response 401 json_headers "Elasticsearch: authentication required".

(** A 401 whose JSON error has an empty list of root causes. *)
Definition unauthorized_no_root_cause : Response :=
  mk_Response 401 json_headers (dq "{'error':{'root_cause':[]}}").

(** A 401 whose JSON error is of another kind. *)
Definition unauthorized_other_kind : Response :=
  mk_Response 401 json_headers
    (dq "{'error':{'root_cause':[{'type':'illegal_argument_exception'}]}}").

(** A 200 with another product header, whose body names the product. *)
Definition ok_other_product_naming_product : Response :=
  mk_Response 200
    [("Content-Type", "application/json"); ("X-elastic-product", "OpenSearch")]
    (dq "{'tagline':'compatible with elasticsearch'}").

(** A 200 without product header, whose body does not name the product. *)
Definition ok_unmarked : Response :=
  mk_Response 200 json_headers (dq "{'status':'green'}").

(** ** Reading a computation *)

(** The world a computation leaves. *)
Definition world_after {A : Type} (m : M A) (w : world) : world := fst (m w).

(** An enumeration returned [True] (it neither returned [False] nor raised). *)
Definition returned_true (m : M bool) (w : world) : bool :=
  match m w with
  | (_, Ok b) => b
  | (_, Raise _) => false
  end.

(** [m] relates every world to the world it leaves. *)
Definition respects (R : world -> world -> Prop) {A : Type} (m : M A) : Prop :=
  forall w, R w (world_after m w).

(** Neither a request nor a vulnerability was logged in between. *)
Definition same_log (w w' : world) : Prop :=
  requests w' = requests w /\ vulnerabilities w' = vulnerabilities w.

(** ** Reading the report of the user enumeration *)

Definition role_names (u : user_properties) : list value :=
  map (fun kv => value_of_hashable (fst kv)) (roles u).

(** The node [n] is a user node whose properties, as the report holds them
    in [w], have the username [name] and exactly the roles [rs], in the
    order of the dict. *)
Definition records (w : world) (n : node) (name : value) (rs : list value)
  : Prop :=
  exists a u,
    node_properties n = UserProps a /\
    nth_error (heap w) a = Some u /\
    username u = name /\
    role_names u = rs.

(** The prefix of a coloured role line. *)
Definition red_role_prefix : string :=
  (esc ++ "[0mRole: " ++ esc ++ "[31m")%string.

(** The role a printed line announces, when it is one of the two
    [Role: ...] lines of [_print_user]. *)
Definition role_of_call (c : ptprint_call) : option value :=
  match text_of c with
  | [Lit s; FVal v] =>
      if orb (String.eqb s "Role: ") (String.eqb s red_role_prefix)
      then Some v else None
  | _ => None
  end.

Fixpoint printed_roles (calls : list ptprint_call) : list value :=
  match calls with
  | [] => []
  | c :: t =>
      match role_of_call c with
      | Some v => v :: printed_roles t
      | None => printed_roles t
      end
  end.

(** Every [user_properties] object of [w] is still there in [w'], with the
    same username and the same roles as keys. *)
Definition keys_kept (w w' : world) : Prop :=
  forall a u,
    nth_error (heap w) a = Some u ->
    exists u',
      nth_error (heap w') a = Some u' /\
      username u' = username u /\
      role_names u' = role_names u.

(** From [w] to [w'] lines were printed, of which the role lines announce
    at most [length allowed] roles, all among [allowed]; no node was added
    and no object changed its roles. *)
Definition role_lines (allowed : list value) (w w' : world) : Prop :=
  exists lines,
    printed w' = (printed w ++ lines)%list /\
    nodes w' = nodes w /\
    keys_kept w w' /\
    List.length (printed_roles lines) <= List.length allowed /\
    incl (printed_roles lines) allowed.

(** What the user endpoint answered, decoded. *)
Definition users_answer (args : Args) (client : http_client) : result value :=
  rbind (client (url args ++ "_security/user")%string) Response_json.

(** [user] is one of the users of the answer: what [users[entry]] gives for
    an [entry] of the loop of [run]. *)
Definition user_of_answer (args : Args) (client : http_client) (user : value)
  : Prop :=
  exists users entries entry,
    users_answer args client = Ok users /\
    iterate users = Ok entries /\
    In entry entries /\
    rbind (hash_key entry) (subscript users) = Ok user.

(** One turn of the loop of [run]: the node of the turn records, for one
    user of the answer, the username and, of the roles [role_list] the user
    has, the first one only (none when the user has none); the role lines
    printed in the turn announce nothing, or that one role. *)
Definition user_turn (args : Args) (client : http_client) (w : world)
  (turn : node * list value) : Prop :=
  exists user name rs role_list,
    user_of_answer args client user /\
    getitem user "username" = Ok name /\
    getitem user "roles" = Ok rs /\
    iterate rs = Ok role_list /\
    records w (fst turn) name (firstn 1 role_list) /\
    (snd turn = [] \/ snd turn = firstn 1 role_list).

(** From [w] to [w'] the user enumeration printed [lines] and went through
    [turns]: the nodes added are those of the turns, in order, and so are
    the roles announced by the role lines. *)
Definition enumerated (args : Args) (client : http_client) (w w' : world)
  : Prop :=
  exists lines turns,
    printed w' = (printed w ++ lines)%list /\
    nodes w' = (nodes w ++ map fst turns)%list /\
    keys_kept w w' /\
    printed_roles lines = concat (map snd turns) /\
    Forall (user_turn args client w') turns.

(** A 401 whose JSON body names the product. *)
Definition unauthorized_json_naming_product : Response :=
  mk_Response 401 json_headers
    (dq "{'error':'Elasticsearch security: missing authentication credentials'}").

(** A 401 whose JSON body has no [error] key. *)
Definition unauthorized_no_error_key : Response :=
  mk_Response 401 json_headers (dq "{'message':'Unauthorized'}").

(** A 200 without product header whose body names the product. *)
Definition ok_naming_product : Response :=
  mk_Response 200 json_headers
    (dq "{'version':{'build_flavor':'default'},'tagline':'Elasticsearch 6'}").

(** A target that answers the three endpoints of the software probe: the
    root document lacks the cluster name, the node list is not JSON, and the
    plugin table has one line. *)
Definition half_open_target : http_client :=
  fun u =>
    if String.eqb u "http://target:9200/" then
      Ok (mk_Response 200 json_headers
            (dq "{'name':'node-1','version':{'number':'8.1.0','lucene_version':'9.0.0'}}"))
    else if String.eqb u "http://target:9200/_nodes" then
      Ok (mk_Response 200 json_headers "<html>upstream timed out</html>")
    else if String.eqb u "http://target:9200/_cat/plugins" then
      Ok (mk_Response 200 []
            ("node-1 analysis-icu 8.1.0" ++ String (ascii_of_nat 10) EmptyString))
    else Raise RequestException.

(** A target that refuses every connection. *)
Definition unreachable_target : http_client := fun _ => Raise RequestException.

(** A target with three users, of two, no and three roles; the role
    endpoint answers 403 with a JSON body. *)
Definition three_users_target : http_client :=
  fun u =>
    if String.eqb u "http://target:9200/_security/user" then
      Ok (mk_Response 200 json_headers
            (dq ("{'elastic':{'username':'elastic','roles':['superuser','kibana_admin'],'email':null},"
                 ++ "'bob':{'username':'bob','roles':[],'email':'bob@example.org'},"
                 ++ "'eve':{'username':'eve','roles':['viewer','monitor','editor'],'email':'eve@example.org'}}")))
    else if String.eqb u "http://target:9200/_security/role" then
      Ok (mk_Response 403 json_headers (dq "{'error':'forbidden'}"))
    else Raise RequestException.

(** ** https.py *)

Module HttpTest.

Definition _check_http (args : Args) (client : http_client) (url : string)
  : M unit :=
  response <- send_request client url ;;
  if orb (status_code response =? 200)%Z (status_code response =? 401)%Z
  then ptprint [Lit "The host is running HTTP"] "VULN" (negb (json args)) false 4 ;;;
       add_vulnerability "PTV-ELASTIC-MISC-HTTP"
  else ptprint [Lit "The host is not running on HTTP"]
         "INFO" (negb (json args)) false 4.

Definition _check_url (args : Args) : string :=
  let url := url args in
  if andb (negb (contains "http://" url)) (negb (contains "https://" url))
  then ("http://" ++ url)%string
  else url.

Definition run (args : Args) (client : http_client) : M unit :=
  let url := _check_url args in
  if contains "http://" url then _check_http args client url
  else ptprint [Lit "The host is not running on HTTP"]
         "INFO" (negb (json args)) false 4.

End HttpTest.

(** [args] with another URL. *)
Definition with_url (args : Args) (u : string) : Args :=
  mk_Args u (request_headers args) (verbose args) (json args).

(** A URL whose scheme is https and whose query names an http URL. *)
Definition https_url_with_http_query : string :=
  "https://target:9200/?next=http://example.org/".

(** ** The availability probe as a table *)

(** [response_json["error"]["root_cause"][0]["type"]]. *)
Definition error_type (response_json : value) : result value :=
  rbind (getitem response_json "error") (fun e =>
  rbind (getitem e "root_cause") (fun rc =>
  rbind (getitem_int rc 0) (fun first =>
  getitem first "type"))).

(** The verdicts printed for a response, or the exception raised, read off
    the branches of [IsElastic.run]. *)
Definition verdict_table (r : Response) : result (list Verdict) :=
  if negb (Signals.has_json_content_type r) then Ok [NotDetected]
  else if (status_code r =? 401)%Z then
    match Response_json r with
    | Raise e => Raise e
    | Ok response_json =>
        if Signals.body_mentions_product r then Ok [Confirmed]
        else match error_type response_json with
             | Ok ty => if eq_str ty "security_exception" then Ok [Likely] else Ok []
             | Raise (KeyError _) => Ok [NotDetected]
             | Raise e => Raise e
             end
    end
  else if (status_code r =? 200)%Z then
    match Signals.product_header_value r with
    | Some product =>
        if String.eqb product "Elasticsearch" then Ok [Confirmed] else Ok []
    | None => if Signals.body_mentions_product r then Ok [Confirmed] else Ok []
    end
  else Ok [NotDetected].

(** A body in which the product name is written with capitals. *)
Definition ok_naming_product_in_capitals : Response :=
  mk_Response 200 json_headers (dq "{'tagline':'Powered by ELASTICSearch'}").

(** ** Reading the report of the software probe *)

(** [w] after the lines [lines] were printed and the nodes [ns] recorded. *)
Definition emit (w : world) (lines : list ptprint_call) (ns : list node)
  : world :=
  mk_world (printed w ++ lines) (requests w) (nodes w ++ ns)
    (vulnerabilities w) (heap w).

(** [w] after a request to [u]. *)
Definition requested (w : world) (u : string) : world :=
  mk_world (printed w) (requests w ++ [u]) (nodes w) (vulnerabilities w)
    (heap w).

Definition newline : ascii := ascii_of_nat 10.

Definition space : ascii := " "%char.

(** [c] does not occur in [s]. *)
Fixpoint free_of (c : ascii) (s : string) : bool :=
  match s with
  | EmptyString => true
  | String c' t => andb (negb (Ascii.eqb c' c)) (free_of c t)
  end.

Fixpoint spaces (n : nat) : string :=
  match n with
  | O => EmptyString
  | S m => String space (spaces m)
  end.

(** A column of the plugin table: not empty, no space, no line break. *)
Definition column (s : string) : bool :=
  andb (negb (String.eqb s EmptyString))
       (andb (free_of space s) (free_of newline s)).

(** A row of the plugin table: three columns, and the numbers of spaces that
    pad them (one more than [gap1] and [gap2] between the columns, [gap3]
    before the line break). *)
Record plugin_row : Type := mk_row {
  row_node : string;
  gap1 : nat;
  row_name : string;
  gap2 : nat;
  row_version : string;
  gap3 : nat
}.

Definition row_ok (row : plugin_row) : bool :=
  andb (column (row_node row))
       (andb (column (row_name row)) (column (row_version row))).

(** The line of a row, without its line break. *)
Definition row_text (row : plugin_row) : string :=
  (row_node row ++ spaces (S (gap1 row)) ++ row_name row ++
   spaces (S (gap2 row)) ++ row_version row ++ spaces (gap3 row))%string.

(** The table: every row on a line of its own, each ended by a line break. *)
Fixpoint table_text (rows : list plugin_row) : string :=
  match rows with
  | [] => EmptyString
  | row :: t => (row_text row ++ String newline (table_text t))%string
  end.

(** What [_get_plugins] records and prints for a row. *)
Definition plugin_node (row : plugin_row) : node :=
  mk_node "sw"
    (Props [("es_node", VStr (row_node row)); ("name", VStr (row_name row));
            ("version", VStr (row_version row))]).

Definition plugin_line (args : Args) (row : plugin_row) : ptprint_call :=
  mk_ptprint
    [Lit "Found plugin: "; FVal (VStr (row_name row)); Lit " ";
     FVal (VStr (row_version row)); Lit " on node: ";
     FVal (VStr (row_node row))]
    "INFO" (negb (json args)) false 4.

(** A plugin table of two rows, padded as Elasticsearch pads it. *)
Definition two_plugins : list plugin_row :=
  [mk_row "node-1" 0 "analysis-icu" 3 "8.1.0" 1;
   mk_row "node-1" 0 "repository-s3" 2 "8.1.0" 1].

(** The body of the loop of [_get_plugins] (lines 130-139). *)
Definition record_plugin (args : Args) (plugin : list string) : M unit :=
  let plugin := filter (fun s => negb (String.eqb s EmptyString)) plugin in
  es_node <- lift (item plugin 0) ;;
  name <- lift (item plugin 1) ;;
  version <- lift (item plugin 2) ;;
  add_node "sw" (Props [("es_node", es_node); ("name", name);
                        ("version", version)]) ;;;
  SwTest.info args [Lit "Found plugin: "; FVal name; Lit " "; FVal version;
                    Lit " on node: "; FVal es_node].

(** The lines [_get_plugins] goes through: those of the body, the last one
    left out. *)
Definition plugin_lines (body : string) : list string :=
  removelast (split newline body).

(** A body that is empty or ends with a line break. *)
Definition terminated (body : string) : Prop :=
  body = EmptyString \/ exists b, body = (b ++ String newline EmptyString)%string.

(** The root document of a 200 answer holds the four values the version
    enumeration reads. *)
Definition es_document (r : Response) (number name cluster lucene : value)
  : Prop :=
  status_code r = 200%Z /\
  exists doc version,
    Response_json r = Ok doc /\
    getitem doc "version" = Ok version /\
    getitem version "number" = Ok number /\
    getitem doc "name" = Ok name /\
    getitem doc "cluster_name" = Ok cluster /\
    getitem version "lucene_version" = Ok lucene.

Definition es_version_node (number name cluster lucene : value) : node :=
  mk_node "sw"
    (Props [("es_version", number); ("name", name); ("cluster_name", cluster);
            ("apache_lucene_version", lucene)]).


(** ** Reading the /_nodes document *)

(** A module of a node: the value as decoded, and the three values
    [_get_modules] reads from it. *)
Record es_module : Type := mk_module {
  module_value : value;
  module_name : value;
  module_version : value;
  module_description : value
}.

Definition module_ok (m : es_module) : Prop :=
  getitem (module_value m) "name" = Ok (module_name m) /\
  getitem (module_value m) "version" = Ok (module_version m) /\
  getitem (module_value m) "description" = Ok (module_description m).

(** The node [fst entry] of the object [ns] lists the modules [snd entry]. *)
Definition node_ok (ns : list (string * value))
  (entry : string * list es_module) : Prop :=
  exists n,
    dict_get ns (fst entry) = Some n /\
    getitem n "modules" = Ok (VList (map module_value (snd entry))) /\
    Forall module_ok (snd entry).

(** What [_get_modules] records and prints for a module. *)
Definition module_node (m : es_module) : node :=
  mk_node "sw"
    (Props [("name", module_name m); ("version", module_version m);
            ("description", module_description m)]).

Definition module_line (args : Args) (m : es_module) : ptprint_call :=
  mk_ptprint
    [Lit "Found module: "; FVal (module_name m); Lit " ";
     FVal (module_version m)]
    "INFO" (negb (json args)) false 4.

(** The modules of all nodes, node after node. *)
Definition all_modules (per_node : list (string * list es_module))
  : list es_module :=
  concat (map snd per_node).

(** The body of the inner loop of [_get_modules] (lines 95-103). *)
Definition record_module (args : Args) (module : value) : M unit :=
  name <- lift (getitem module "name") ;;
  version <- lift (getitem module "version") ;;
  description <- lift (getitem module "description") ;;
  add_node "sw" (Props [("name", name); ("version", version);
                        ("description", description)]) ;;;
  SwTest.info args [Lit "Found module: "; FVal name; Lit " "; FVal version].

(** The body of the outer loop of [_get_modules] (lines 93-103). *)
Definition record_node_modules (args : Args) (response : value)
  (node : value) : M unit :=
  modules <- lift (rbind (getitem response "nodes") (fun ns =>
                   match node with
                   | VStr k => rbind (getitem ns k) (fun n => getitem n "modules")
                   | _ => Raise TypeError
                   end)) ;;
  modules <- lift (iterate modules) ;;
  for_each modules (record_module args).

(** A /_nodes answer for two nodes, the second without modules. *)
Definition two_nodes : Response :=
  mk_Response 200 json_headers
    (dq "{'_nodes':{'total':2},'nodes':{'a1':{'name':'node-1','modules':[{'name':'aggregations','version':'8.1.0','description':'Adds aggregations','classname':'org.elasticsearch.aggregations.AggregationsPlugin'},{'name':'x-pack-core','version':'8.1.0','description':'Elasticsearch Expanded Pack Plugin - Core'}]},'b2':{'name':'node-2','modules':[]}}}").

Definition aggregations_module : es_module :=
  mk_module
    (VDict [("name", VStr "aggregations"); ("version", VStr "8.1.0");
            ("description", VStr "Adds aggregations");
            ("classname",
             VStr "org.elasticsearch.aggregations.AggregationsPlugin")])
    (VStr "aggregations") (VStr "8.1.0") (VStr "Adds aggregations").

Definition core_module : es_module :=
  mk_module
    (VDict [("name", VStr "x-pack-core"); ("version", VStr "8.1.0");
            ("description", VStr "Elasticsearch Expanded Pack Plugin - Core")])
    (VStr "x-pack-core") (VStr "8.1.0")
    (VStr "Elasticsearch Expanded Pack Plugin - Core").

(** ** Reading the /_security/user document *)

(** The first user of the document [users] has the name [un], the address
    [em] and, paired with the one empty list of line 120, the roles
    [roles]. *)
Definition first_user (users : value) (un em : value)
  (roles : list (hashable * list (string * value))) : Prop :=
  exists k user rest rs names,
    users = VDict ((k, user) :: rest) /\
    getitem user "roles" = Ok rs /\
    iterate rs = Ok names /\
    dict_of_pairs (combine names [[]]) [] = Ok roles /\
    getitem user "username" = Ok un /\
    getitem user "email" = Ok em.

(** A server that lists its users and refuses to list its roles with a page
    that is not JSON. *)
Definition roles_forbidden : http_client :=
  fun u =>
    if String.eqb u "http://target:9200/_security/user"
    then Ok (mk_Response 200 json_headers
               (dq "{'elastic':{'username':'elastic','roles':['superuser'],'email':null}}"))
    else Ok (mk_Response 403 [("Content-Type", "text/html")]
               "<html><body>Forbidden</body></html>").

(** ** auth.py *)

(** The digits at the head of [s], read as a number after [acc]; with them,
    how many they are and what follows them. *)
Fixpoint read_digits (s : string) (acc : Z) (n : nat) : Z * nat * string :=
  match s with
  | String c t =>
      if is_digit c
      then read_digits t (10 * acc + Z.of_nat (nat_of_ascii c - 48))%Z (S n)
      else (acc, n, s)
  | EmptyString => (acc, n, s)
  end.

(** The exponent of a number literal, from its [e] or [E] on. *)
Definition read_exponent (s : string) : Z :=
  match s with
  | String _ t =>
      match t with
      | String sign u =>
          if Ascii.eqb sign "-"%char then (- fst (fst (read_digits u 0%Z 0)))%Z
          else if Ascii.eqb sign "+"%char then fst (fst (read_digits u 0%Z 0))
          else fst (fst (read_digits t 0%Z 0))
      | EmptyString => 0%Z
      end
  | EmptyString => 0%Z
  end.

(** The number a literal of the decoder denotes is zero.  An [int] is zero
    when its digits are; a [float] is the nearest double of the decimal
    [m * 10^k], which is 0.0 when [m] is 0 or the decimal is at most
    2^-1075, half of the smallest double above 0.  [NaN] and the infinities
    are not zero. *)
Definition literal_is_zero (literal : string) : bool :=
  let s := match literal with
           | String c t => if Ascii.eqb c "-"%char then t else literal
           | EmptyString => literal
           end in
  match s with
  | String c _ =>
      if is_digit c then
        let '(i, _, s1) := read_digits s 0%Z 0 in
        let '(m, fl, s2) :=
          match s1 with
          | String d t =>
              if Ascii.eqb d "."%char then read_digits t i 0 else (i, 0, s1)
          | EmptyString => (i, 0, s1)
          end in
        let k := (read_exponent s2 - Z.of_nat fl)%Z in
        if (m =? 0)%Z then true
        else if (0 <=? k)%Z then false
        else (m * 2 ^ 1075 <=? 10 ^ (- k))%Z
      else false
  | EmptyString => false
  end.

(** [bool(v)]. *)
Definition truthy (v : value) : bool :=
  match v with
  | VNone => false
  | VBool b => b
  | VNum literal => negb (literal_is_zero literal)
  | VStr s => negb (String.eqb s EmptyString)
  | VList l => match l with [] => false | _ :: _ => true end
  | VDict d => match d with [] => false | _ :: _ => true end
  end.

(** [needle in v] for a string [needle]: a part of a [str], an item of a
    list, a key of a dict. *)
Definition is_in (needle : string) (v : value) : result bool :=
  match v with
  | VStr s => Ok (contains needle s)
  | VList l => Ok (existsb (fun x => eq_str x needle) l)
  | VDict d => Ok (existsb (fun kv => String.eqb (fst kv) needle) d)
  | _ => Raise TypeError
  end.

Module Auth.

Section Collaborators.

(** [ptjsonlib.end_error(message, condition)] and
    [ptjsonlib.add_properties(properties)] belong to the ptlibs package; the
    probe is read for any behaviour of the two. *)
Variable end_error : list frag -> bool -> M unit.
Variable add_properties : list (string * value) -> M unit.

(** The loop of [_print_anon_role] (lines 46-49); [true] when the method
    returns from inside it. *)
Fixpoint anon_loop (args : Args) (users : value) (names : list value)
  : M bool :=
  match names with
  | [] => ret false
  | user :: t =>
      anon <- lift (is_in "anon" user) ;;
      matches <- (if anon then ret true else lift (is_in "anonymous" user)) ;;
      if matches then
        roles <- lift (rbind (rbind (rbind (hash_key user) (subscript users))
                                (fun u => getitem u "roles"))
                         (join ", ")) ;;
        ptprint [Lit "Anonymous role: "; FVal (VStr roles)]
          "INFO" (negb (json args)) false 7 ;;;
        ret true
      else anon_loop args users t
  end.

Definition _print_anon_role (args : Args) (client : http_client) : M unit :=
  response <- send_request client (url args ++ "_security/user") ;;
  (if negb (status_code response =? 200)%Z
   then end_error [Lit "Webpage returns status code: ";
                   FInt (status_code response)] (json args)
   else ret tt) ;;;
  users <- lift (Response_json response) ;;
  names <- lift (keys users) ;;
  returned <- anon_loop args users names ;;
  if returned then ret tt
  else
    names <- lift (keys users) ;;
    all <- lift (join_strings "," names) ;;
    ptprint [Lit "Could not find username which would match 'anonymous' or 'anon' All users: ";
             FVal (VStr all)]
      "ERROR" (negb (json args)) false 4.

Definition _test_anon_auth (args : Args) (client : http_client) : M unit :=
  security <- send_request client
                (url args ++ "_xpack?filter_path=features.security") ;;
  (if negb (status_code security =? 200)%Z
   then end_error [Lit "Webpage returns status code: ";
                   FInt (status_code security)] (json args)
   else ret tt) ;;;
  security <- lift (Response_json security) ;;
  enabled <- lift (rbind (rbind (getitem security "features")
                            (fun f => getitem f "security"))
                     (fun s => getitem s "enabled")) ;;
  if negb (truthy enabled) then
    ptprint [Lit "Authentication is disabled"]
      "VULN" (negb (json args)) false 4 ;;;
    add_vulnerability "PTV-WEB-ELASTIC-AUTH" ;;;
    add_properties [("authentication", VStr "disabled")]
  else
    ptprint [Lit "Authentication is enabled, but anonymous access is allowed"]
      "VULN" (negb (json args)) false 4 ;;;
    _print_anon_role args client.

Definition run (args : Args) (client : http_client) : M unit :=
  response <- send_request client (url args) ;;
  (if verbose args
   then ptprint [Lit "Sending request to: "; FVal (VStr (url args))]
          "INFO" (negb (json args)) false 4 ;;;
        ptprint [Lit "Returned response status: "; FInt (status_code response)]
          "INFO" (negb (json args)) false 4
   else ret tt) ;;;
  if (status_code response =? 401)%Z then
    ptprint [Lit "Authentication is enabled"] "VULN" (negb (json args)) false 4
  else if (status_code response =? 200)%Z then _test_anon_auth args client
  else end_error [Lit "Webpage returns status code: ";
                  FInt (status_code response)] (json args).

End Collaborators.

End Auth.

(** ** Reading the report of the authentication probe *)

(** The value of [features.security.enabled] in the answer [r]. *)
Definition security_enabled (r : Response) (enabled : value) : Prop :=
  exists security,
    Response_json r = Ok security /\
    rbind (rbind (getitem security "features") (fun f => getitem f "security"))
      (fun s => getitem s "enabled") = Ok enabled.

(** The name of a user has the part [anon]. *)
Definition anonymous_name (kv : string * value) : bool :=
  contains "anon" (fst kv).

Definition anon_role_line (args : Args) (roles : string) : ptprint_call :=
  mk_ptprint [Lit "Anonymous role: "; FVal (VStr roles)]
    "INFO" (negb (json args)) false 7.

Definition no_anon_line (args : Args) (names : list string) : ptprint_call :=
  mk_ptprint
    [Lit "Could not find username which would match 'anonymous' or 'anon' All users: ";
     FVal (VStr (String.concat "," names))]
    "ERROR" (negb (json args)) false 4.

Definition auth_disabled_line (args : Args) : ptprint_call :=
  mk_ptprint [Lit "Authentication is disabled"]
    "VULN" (negb (json args)) false 4.

Definition anon_allowed_line (args : Args) : ptprint_call :=
  mk_ptprint
    [Lit "Authentication is enabled, but anonymous access is allowed"]
    "VULN" (negb (json args)) false 4.

(** Between [w] and [w'] lines were printed and nothing else was done. *)
Definition prints_only (w w' : world) : Prop :=
  exists lines, w' = emit w lines [].

(** Collaborators that do nothing, for runs that are not read for them. *)
Definition end_error_unused : list frag -> bool -> M unit := fun _ _ => ret tt.

Definition add_properties_unused : list (string * value) -> M unit :=
  fun _ => ret tt.

(** A cluster without authentication, one with anonymous access, and the
    users of the latter. *)
Definition security_off : Response :=
  mk_Response 200 json_headers
    (dq "{'features':{'security':{'available':true,'enabled':false}}}").

Definition security_on : Response :=
  mk_Response 200 json_headers
    (dq "{'features':{'security':{'available':true,'enabled':true}}}").

Definition users_with_anonymous : Response :=
  mk_Response 200 json_headers
    (dq "{'elastic':{'username':'elastic','roles':['superuser']},'_anonymous':{'username':'_anonymous','roles':['viewer','monitoring_user']}}").

Definition users_without_anonymous : Response :=
  mk_Response 200 json_headers
    (dq "{'elastic':{'username':'elastic','roles':['superuser']},'kibana':{'username':'kibana','roles':['kibana_system']}}").

Definition open_cluster : http_client :=
  fun u =>
    if String.eqb u "http://target:9200/_xpack?filter_path=features.security"
    then Ok security_off
    else Ok scenario_B.

Definition anonymous_cluster : http_client :=
  fun u =>
    if String.eqb u "http://target:9200/_xpack?filter_path=features.security"
    then Ok security_on
    else if String.eqb u "http://target:9200/_security/user"
    then Ok users_with_anonymous
    else Ok scenario_B.

(** * The decoder does not depend on its fuel *)

Lemma skip_ws_length : forall s, List.length (skip_ws s) <= List.length s.
Proof.
  induction s as [|c t IH]; simpl; [lia|].
  destruct (is_ws c); simpl; lia.
Qed.

Lemma tl_shorter :
  forall c s, head_is c s = true -> S (List.length (tl s)) = List.length s.
Proof.
  intros c [|c' t] H; [discriminate | reflexivity].
Qed.

Lemma span_digits_length :
  forall s, List.length (snd (span_digits s)) <= List.length s.
Proof.
  induction s as [|c t IH]; simpl; [lia|].
  destruct (is_digit c); simpl; [|lia].
  destruct (span_digits t) as [ds r]. simpl in *. lia.
Qed.

Lemma scan_string_shorter :
  forall n s acc k r,
    List.length s <= n -> scan_string s acc = Some (k, r) ->
    List.length r < List.length s.
Proof.
  induction n as [|n IH]; intros s acc k r Hn H.
  - destruct s; [discriminate | simpl in Hn; lia].
  - destruct s as [|c t]; [discriminate|]. simpl in Hn. cbn [scan_string] in H.
    destruct (Ascii.eqb c dquote).
    { injection H as _ <-. simpl. lia. }
    destruct (Ascii.eqb c "\"%char).
    + destruct t as [|e t1]; [discriminate|]. simpl in Hn.
      destruct (Ascii.eqb e "u"%char).
      * destruct t1 as [|a [|b [|c' [|d t2]]]]; try discriminate.
        destruct (hex4 a b c' d); [|discriminate].
        apply IH in H; simpl in *; lia.
      * destruct (escape e); [|discriminate].
        apply IH in H; simpl in *; lia.
    + destruct (nat_of_ascii c <? 32); [discriminate|].
      apply IH in H; simpl in *; lia.
Qed.

Lemma strip_prefix_length :
  forall p s r,
    strip_prefix p s = Some r -> List.length r + List.length p = List.length s.
Proof.
  induction p as [|a p IH]; intros s r H; simpl in H.
  - injection H as <-. simpl. lia.
  - destruct s as [|b s]; [discriminate|].
    destruct (Ascii.eqb a b); [|discriminate].
    apply IH in H. simpl. lia.
Qed.

Lemma scan_word_shorter :
  forall word v s x r,
    word <> EmptyString -> scan_word word v s = Some (x, r) ->
    List.length r < List.length s.
Proof.
  intros word v s x r Hw H. unfold scan_word in H.
  destruct (strip_prefix (list_ascii_of_string word) s) as [r'|] eqn:E;
    [|discriminate].
  injection H as _ <-. apply strip_prefix_length in E.
  destruct word; [contradiction|]. simpl in E. lia.
Qed.

Lemma scan_constant_shorter :
  forall s x r, scan_constant s = Some (x, r) -> List.length r < List.length s.
Proof.
  intros s x r H. unfold scan_constant in H.
  repeat match type of H with
         | match scan_word ?w ?v s with _ => _ end = _ =>
             destruct (scan_word w v s) as [[x' r']|] eqn:?;
               [injection H as <- <-; eapply scan_word_shorter; [|eassumption];
                discriminate|]
         end.
  eapply scan_word_shorter; [|eassumption]. discriminate.
Qed.

Lemma scan_sign_length :
  forall s, List.length (snd (scan_sign s)) <= List.length s.
Proof.
  intros s. unfold scan_sign. destruct (head_is "-"%char s) eqn:E; simpl; [|lia].
  apply tl_shorter in E. lia.
Qed.

Lemma scan_int_shorter :
  forall s ip r, scan_int s = Some (ip, r) -> List.length r < List.length s.
Proof.
  intros s ip r H. unfold scan_int in H.
  destruct (head_is "0"%char s) eqn:E.
  - injection H as _ <-. apply tl_shorter in E. lia.
  - destruct s as [|c t]; [discriminate|].
    destruct (is_digit c) eqn:D; [|discriminate].
    injection H as H. simpl in H. rewrite D in H.
    pose proof (span_digits_length t) as Ht.
    destruct (span_digits t) as [ds r']. injection H as _ <-. simpl in *. lia.
Qed.

Lemma scan_frac_length :
  forall s, List.length (snd (scan_frac s)) <= List.length s.
Proof.
  intros s. unfold scan_frac. destruct (head_is "."%char s) eqn:E; simpl; [|lia].
  pose proof (span_digits_length (tl s)) as Ht. apply tl_shorter in E.
  destruct (span_digits (tl s)) as [[|d ds] r]; simpl in *; lia.
Qed.

Lemma scan_exp_length :
  forall s, List.length (snd (scan_exp s)) <= List.length s.
Proof.
  intros [|e t]; simpl; [lia|].
  destruct (orb (Ascii.eqb e "e"%char) (Ascii.eqb e "E"%char)); simpl; [|lia].
  destruct (head_is "+"%char t) eqn:E1; [|destruct (head_is "-"%char t) eqn:E2].
  - apply tl_shorter in E1. pose proof (span_digits_length (tl t)) as Hs.
    destruct (span_digits (tl t)) as [[|d ds] r]; simpl in *; lia.
  - apply tl_shorter in E2. pose proof (span_digits_length (tl t)) as Hs.
    destruct (span_digits (tl t)) as [[|d ds] r]; simpl in *; lia.
  - pose proof (span_digits_length t) as Hs.
    destruct (span_digits t) as [[|d ds] r]; simpl in *; lia.
Qed.

Lemma scan_number_shorter :
  forall s lit r, scan_number s = Some (lit, r) -> List.length r < List.length s.
Proof.
  intros s lit r H. unfold scan_number in H.
  pose proof (scan_sign_length s) as H1.
  destruct (scan_sign s) as [sign s1].
  destruct (scan_int s1) as [[ip s2]|] eqn:E; [|discriminate].
  apply scan_int_shorter in E.
  pose proof (scan_frac_length s2) as H2.
  destruct (scan_frac s2) as [frac s3].
  pose proof (scan_exp_length s3) as H3.
  destruct (scan_exp s3) as [ex s4].
  injection H as _ <-. simpl in *. lia.
Qed.

Lemma scan_scalar_shorter :
  forall s v r, scan_scalar s = Some (v, r) -> List.length r < List.length s.
Proof.
  intros s v r H. unfold scan_scalar in H.
  destruct (head_is dquote s) eqn:E.
  - destruct (scan_string (tl s) []) as [[k r']|] eqn:Es; [|discriminate].
    injection H as _ <-. simpl.
    apply (scan_string_shorter _ _ _ _ _ (le_n _)) in Es.
    apply tl_shorter in E. lia.
  - destruct (scan_constant s) as [[x r']|] eqn:Ec.
    + injection H as _ <-. eapply scan_constant_shorter. exact Ec.
    + destruct (scan_number s) as [[lit r']|] eqn:En; [|discriminate].
      injection H as _ <-. eapply scan_number_shorter. exact En.
Qed.

(** What is left after a value is shorter than the text it was read from. *)
Lemma scan_shorter :
  forall fuel,
    (forall s v r, scan_value fuel s = Some (v, r) ->
                   List.length r < List.length s) /\
    (forall s acc v r, scan_members fuel s acc = Some (v, r) ->
                       List.length r < List.length s) /\
    (forall s acc v r, scan_elements fuel s acc = Some (v, r) ->
                       List.length r < List.length s).
Proof.
  induction fuel as [|fuel (IHv & IHm & IHe)].
  - repeat split; intros; discriminate.
  - repeat split.
    + intros s v r H. cbn [scan_value] in H.
      destruct (head_is "{"%char s) eqn:E1.
      { apply tl_shorter in E1. pose proof (skip_ws_length (tl s)) as Hw.
        destruct (head_is "}"%char (skip_ws (tl s))) eqn:E2.
        - injection H as _ <-. apply tl_shorter in E2. lia.
        - apply IHm in H. lia. }
      destruct (head_is "["%char s) eqn:E2.
      { apply tl_shorter in E2. pose proof (skip_ws_length (tl s)) as Hw.
        destruct (head_is "]"%char (skip_ws (tl s))) eqn:E3.
        - injection H as _ <-. apply tl_shorter in E3. lia.
        - apply IHe in H. lia. }
      apply scan_scalar_shorter in H. exact H.
    + intros s acc v r H. cbn [scan_members] in H.
      destruct (head_is dquote s) eqn:E1; [|discriminate].
      apply tl_shorter in E1.
      destruct (scan_string (tl s) []) as [[k r1]|] eqn:Es; [|discriminate].
      apply (scan_string_shorter _ _ _ _ _ (le_n _)) in Es.
      cbv zeta in H. pose proof (skip_ws_length r1) as Hw1.
      destruct (head_is ":"%char (skip_ws r1)) eqn:E2; [|discriminate].
      apply tl_shorter in E2.
      pose proof (skip_ws_length (tl (skip_ws r1))) as Hw2.
      destruct (scan_value fuel (skip_ws (tl (skip_ws r1)))) as [[x r3]|] eqn:Ev;
        [|discriminate].
      apply IHv in Ev. pose proof (skip_ws_length r3) as Hw3.
      destruct (head_is ","%char (skip_ws r3)) eqn:E3.
      * apply tl_shorter in E3.
        pose proof (skip_ws_length (tl (skip_ws r3))) as Hw4.
        apply IHm in H. lia.
      * destruct (head_is "}"%char (skip_ws r3)) eqn:E4; [|discriminate].
        injection H as _ <-. apply tl_shorter in E4. lia.
    + intros s acc v r H. cbn [scan_elements] in H.
      destruct (scan_value fuel s) as [[x r1]|] eqn:Ev; [|discriminate].
      apply IHv in Ev. cbv zeta in H. pose proof (skip_ws_length r1) as Hw1.
      destruct (head_is ","%char (skip_ws r1)) eqn:E3.
      * apply tl_shorter in E3.
        pose proof (skip_ws_length (tl (skip_ws r1))) as Hw4.
        apply IHe in H. lia.
      * destruct (head_is "]"%char (skip_ws r1)) eqn:E4; [|discriminate].
        injection H as _ <-. apply tl_shorter in E4. lia.
Qed.

(** With fuel of twice the length of the text (and one more for the
    elements of an array), more fuel changes nothing. *)
Lemma scan_fuel :
  forall fuel,
    (forall s more, 2 * List.length s <= fuel -> fuel <= more ->
                    scan_value more s = scan_value fuel s) /\
    (forall s acc more, 2 * List.length s <= fuel -> fuel <= more ->
                        scan_members more s acc = scan_members fuel s acc) /\
    (forall s acc more, 2 * List.length s + 1 <= fuel -> fuel <= more ->
                        scan_elements more s acc = scan_elements fuel s acc).
Proof.
  induction fuel as [|fuel (IHv & IHm & IHe)].
  - repeat split.
    + intros s more Hs _. destruct s; [|simpl in Hs; lia].
      destruct more; reflexivity.
    + intros s acc more Hs _. destruct s; [|simpl in Hs; lia].
      destruct more; reflexivity.
    + intros s acc more Hs _. lia.
  - repeat split.
    + intros s more Hs Hm. destruct more as [|more]; [lia|].
      cbn [scan_value].
      destruct (head_is "{"%char s) eqn:E1.
      { apply tl_shorter in E1. pose proof (skip_ws_length (tl s)) as Hw.
        destruct (head_is "}"%char (skip_ws (tl s))); [reflexivity|].
        apply IHm; lia. }
      destruct (head_is "["%char s) eqn:E2; [|reflexivity].
      apply tl_shorter in E2. pose proof (skip_ws_length (tl s)) as Hw.
      destruct (head_is "]"%char (skip_ws (tl s))); [reflexivity|].
      apply IHe; lia.
    + intros s acc more Hs Hm. destruct more as [|more]; [lia|].
      cbn [scan_members].
      destruct (head_is dquote s) eqn:E1; [|reflexivity].
      apply tl_shorter in E1.
      destruct (scan_string (tl s) []) as [[k r1]|] eqn:Es; [|reflexivity].
      apply (scan_string_shorter _ _ _ _ _ (le_n _)) in Es.
      cbv zeta. pose proof (skip_ws_length r1) as Hw1.
      destruct (head_is ":"%char (skip_ws r1)) eqn:E2; [|reflexivity].
      apply tl_shorter in E2.
      pose proof (skip_ws_length (tl (skip_ws r1))) as Hw2.
      rewrite (IHv (skip_ws (tl (skip_ws r1))) more) by lia.
      destruct (scan_value fuel (skip_ws (tl (skip_ws r1)))) as [[x r3]|] eqn:Ev;
        [|reflexivity].
      apply (proj1 (scan_shorter fuel)) in Ev.
      pose proof (skip_ws_length r3) as Hw3.
      destruct (head_is ","%char (skip_ws r3)) eqn:E3; [|reflexivity].
      apply tl_shorter in E3.
      pose proof (skip_ws_length (tl (skip_ws r3))) as Hw4.
      apply IHm; lia.
    + intros s acc more Hs Hm. destruct more as [|more]; [lia|].
      cbn [scan_elements].
      rewrite (IHv s more) by lia.
      destruct (scan_value fuel s) as [[x r1]|] eqn:Ev; [|reflexivity].
      apply (proj1 (scan_shorter fuel)) in Ev.
      cbv zeta. pose proof (skip_ws_length r1) as Hw1.
      destruct (head_is ","%char (skip_ws r1)) eqn:E3; [|reflexivity].
      apply tl_shorter in E3.
      pose proof (skip_ws_length (tl (skip_ws r1))) as Hw4.
      apply IHe; lia.
Qed.

(** [json_loads] gives what the scanner gives with any larger fuel: the
    fuel it runs with is never what makes it fail. *)
Theorem json_loads_fuel :
  forall text more,
    let s := list_ascii_of_string text in
    2 * List.length s <= more ->
    scan_value more (skip_ws s) = scan_value (2 * List.length s) (skip_ws s).
Proof.
  intros text more s Hm.
  apply (proj1 (scan_fuel (2 * List.length s))); [|exact Hm].
  pose proof (skip_ws_length s). lia.
Qed.

(** * Properties of the availability probe *)

Section IsElasticProperties.

Import Signals.

Variable args : Args.
Variable client : http_client.
Variable r : Response.
Hypothesis answered : client (url args) = Ok r.

Lemma verdicts_preamble :
  forall calls, verdicts (preamble args r ++ calls) = verdicts calls.
Proof.
  intros calls. unfold preamble. destruct (verbose args); reflexivity.
Qed.

Lemma run_after_request :
  IsElastic.run args client empty_world =
  IsElastic.inspect args r (after_preamble args r).
Proof.
  unfold IsElastic.run, after_preamble, preamble.
  unfold bind at 1, send_request. simpl. rewrite answered.
  unfold bind at 1.
  destruct (verbose args); reflexivity.
Qed.

Lemma content_type_refused :
  has_json_content_type r = false ->
  IsElastic.content_type_test args r (after_preamble args r) =
  (mk_world
     (preamble args r ++
      [mk_ptprint IsElastic.msg_not "VULN" (negb (json args)) false 4])
     [url args] [] [] [], Ok true).
Proof.
  unfold has_json_content_type, IsElastic.content_type_test, try_except, bind,
    lift, header_getitem.
  destruct (header_lookup (headers r) "content-type") as [ct|]; intros H.
  - rewrite H. reflexivity.
  - reflexivity.
Qed.

Lemma content_type_accepted :
  has_json_content_type r = true ->
  IsElastic.content_type_test args r (after_preamble args r) =
  (after_preamble args r, Ok false).
Proof.
  unfold has_json_content_type, IsElastic.content_type_test, try_except, bind,
    lift, header_getitem.
  destruct (header_lookup (headers r) "content-type") as [ct|]; intros H.
  - rewrite H. reflexivity.
  - discriminate.
Qed.

(** C4.  A response whose content-type header is absent or does not name
    the JSON media type is classified NotDetected, whatever its status
    code, product header and body are. *)
Theorem non_json_content_type_not_detected :
  has_json_content_type r = false ->
  classify args client = Ok [NotDetected].
Proof.
  intros H. unfold classify. rewrite run_after_request.
  unfold IsElastic.inspect, bind. rewrite (content_type_refused H). cbn [ret printed].
  rewrite verdicts_preamble. reflexivity.
Qed.

(** C6.  A JSON 401 whose body does not name the product and whose decoded
    body holds "security_exception" at error.root_cause[0].type is
    classified Likely. *)
Theorem unauthorized_security_exception_likely :
  has_json_content_type r = true ->
  status_code r = 401%Z ->
  body_mentions_product r = false ->
  structured_error_kind r = Some "security_exception" ->
  classify args client = Ok [Likely].
Proof.
  intros Hct Hst Hbody Hkind. unfold classify. rewrite run_after_request.
  unfold IsElastic.inspect, bind at 1. rewrite (content_type_accepted Hct), Hst.
  change (401 =? 401)%Z with true. cbv iota.
  unfold structured_error_kind in Hkind.
  unfold bind at 1, lift, Response_json.
  destruct (json_loads (text r)) as [[| | | | |top]|]; try discriminate.
  destruct (dict_get top "error") as [[| | | | |err]|] eqn:Eerr; try discriminate.
  destruct (dict_get err "root_cause") as [[| | | |[|[| | | | |first] rest]|]|]
    eqn:Erc; try discriminate.
  destruct (dict_get first "type") as [[| | |kind| |]|] eqn:Ety; try discriminate.
  injection Hkind as ->.
  unfold try_except, IsElastic._check_text.
  unfold body_mentions_product in Hbody. rewrite Hbody.
  unfold bind, lift, rbind, getitem, getitem_int. rewrite Eerr, Erc. cbn [nth_error].
  rewrite Ety. cbn.
  rewrite verdicts_preamble. reflexivity.
Qed.

(** C7.  A JSON 200 whose X-elastic-product header is "Elasticsearch" is
    classified Confirmed, whatever the body is. *)
Theorem ok_with_product_header_confirmed :
  has_json_content_type r = true ->
  status_code r = 200%Z ->
  product_header_value r = Some "Elasticsearch" ->
  classify args client = Ok [Confirmed].
Proof.
  intros Hct Hst Hprod. unfold classify. rewrite run_after_request.
  unfold IsElastic.inspect, bind at 1. rewrite (content_type_accepted Hct), Hst.
  change (200 =? 401)%Z with false. change (200 =? 200)%Z with true. cbv iota.
  unfold product_header_value in Hprod.
  unfold try_except, bind, lift, header_getitem. rewrite Hprod. cbn.
  rewrite verdicts_preamble. reflexivity.
Qed.

(** C8.  A JSON response whose status code is neither 200 nor 401 is
    classified NotDetected, whatever its product header and body are. *)
Theorem other_status_not_detected :
  has_json_content_type r = true ->
  status_code r <> 200%Z ->
  status_code r <> 401%Z ->
  classify args client = Ok [NotDetected].
Proof.
  intros Hct H200 H401. unfold classify. rewrite run_after_request.
  unfold IsElastic.inspect, bind at 1. rewrite (content_type_accepted Hct).
  apply Z.eqb_neq in H200, H401. rewrite H200, H401. cbn.
  rewrite verdicts_preamble. reflexivity.
Qed.

End IsElasticProperties.

(** Scenario C: a text/html 200 whose body names the product is NotDetected. *)
Lemma scenario_C_not_detected :
  Signals.has_json_content_type scenario_C = false /\
  Signals.body_mentions_product scenario_C = true /\
  classify plain_args (always scenario_C) = Ok [NotDetected].
Proof.
  split; [reflexivity|]. split; [reflexivity|].
  apply (non_json_content_type_not_detected plain_args (always scenario_C)
           scenario_C); reflexivity.
Defined.

(** Scenario A: the security exception of a 401 is Likely. *)
Lemma scenario_A_likely :
  classify plain_args (always scenario_A) = Ok [Likely].
Proof.
  apply (unauthorized_security_exception_likely plain_args (always scenario_A)
           scenario_A); reflexivity.
Defined.

(** Scenario B: the product header of a 200 is Confirmed, though the body
    does not name the product. *)
Lemma scenario_B_confirmed :
  Signals.body_mentions_product scenario_B = false /\
  classify plain_args (always scenario_B) = Ok [Confirmed].
Proof.
  split; [reflexivity|].
  apply (ok_with_product_header_confirmed plain_args (always scenario_B)
           scenario_B); reflexivity.
Defined.

(** Scenario D: a JSON 404 is NotDetected. *)
Lemma scenario_D_not_detected :
  classify plain_args (always scenario_D) = Ok [NotDetected].
Proof.
  apply (other_status_not_detected plain_args (always scenario_D) scenario_D);
    [reflexivity | reflexivity | discriminate | discriminate].
Defined.

(** C1.  On a JSON 401 the probe raises for two shapes of body: a body that
    is not JSON (the decoding is outside the [try]), and a JSON error whose
    list of root causes is empty (only [KeyError] is caught).  No verdict is
    printed in either case. *)
Theorem malformed_unauthorized_body_raises :
  Signals.has_json_content_type unauthorized_text = true /\
  Signals.structured_error_kind unauthorized_text = None /\
  classify plain_args (always unauthorized_text) = Raise JSONDecodeError /\
  Signals.has_json_content_type unauthorized_no_root_cause = true /\
  Signals.structured_error_kind unauthorized_no_root_cause = None /\
  classify plain_args (always unauthorized_no_root_cause) = Raise IndexError.
Proof.
  repeat split; vm_compute; reflexivity.
Qed.

(** C2.  On a JSON 401 whose body does not name the product and whose error
    kind is not "security_exception", the probe returns without printing any
    verdict: the [elif] has no [else]. *)
Theorem unauthorized_other_kind_prints_no_verdict :
  Signals.has_json_content_type unauthorized_other_kind = true /\
  status_code unauthorized_other_kind = 401%Z /\
  Signals.body_mentions_product unauthorized_other_kind = false /\
  Signals.structured_error_kind unauthorized_other_kind =
    Some "illegal_argument_exception" /\
  classify plain_args (always unauthorized_other_kind) = Ok [].
Proof.
  repeat split; vm_compute; reflexivity.
Qed.

(** C3.  On a JSON 200 the probe prints no verdict when the product header
    holds another value, even if the body names the product, and when the
    header is absent and the body does not name the product. *)
Theorem ok_without_matching_header_prints_no_verdict :
  Signals.product_header_value ok_other_product_naming_product = Some "OpenSearch" /\
  Signals.body_mentions_product ok_other_product_naming_product = true /\
  classify plain_args (always ok_other_product_naming_product) = Ok [] /\
  Signals.product_header_value ok_unmarked = None /\
  Signals.body_mentions_product ok_unmarked = false /\
  classify plain_args (always ok_unmarked) = Ok [].
Proof.
  repeat split; vm_compute; reflexivity.
Qed.

(** C5.  On a JSON 401 whose body names the product but is not JSON, the
    probe raises before it looks at the text. *)
Theorem unauthorized_text_naming_product_raises :
  Signals.has_json_content_type unauthorized_text_naming_product = true /\
  status_code unauthorized_text_naming_product = 401%Z /\
  Signals.body_mentions_product unauthorized_text_naming_product = true /\
  classify plain_args (always unauthorized_text_naming_product) =
    Raise JSONDecodeError.
Proof.
  repeat split; vm_compute; reflexivity.
Qed.

(** * Frame rules

    A relation between worlds that is reflexive and transitive is kept by
    the control structures as soon as the calls they run keep it. *)

Section Frame.

Variable R : world -> world -> Prop.
Hypothesis R_refl : forall w, R w w.
Hypothesis R_trans : forall a b c, R a b -> R b c -> R a c.

Lemma respects_ret : forall (A : Type) (a : A), respects R (ret a).
Proof. intros A a w. apply R_refl. Qed.

Lemma respects_raise : forall (A : Type) (e : exn), respects R (@raise A e).
Proof. intros A e w. apply R_refl. Qed.

Lemma respects_lift : forall (A : Type) (x : result A), respects R (lift x).
Proof. intros A x w. apply R_refl. Qed.

Lemma respects_bind :
  forall (A B : Type) (m : M A) (f : A -> M B),
    respects R m -> (forall a, respects R (f a)) -> respects R (bind m f).
Proof.
  intros A B m f Hm Hf w. unfold world_after, bind.
  specialize (Hm w). unfold world_after in Hm.
  destruct (m w) as [w1 [a|e]]; simpl in *.
  - eapply R_trans; [exact Hm | apply Hf].
  - exact Hm.
Qed.

Lemma respects_try_except :
  forall (A : Type) (body : M A) (catches : exn -> bool) (handler : exn -> M A),
    respects R body -> (forall e, respects R (handler e)) ->
    respects R (try_except body catches handler).
Proof.
  intros A body catches handler Hb Hh w. unfold world_after, try_except.
  specialize (Hb w). unfold world_after in Hb.
  destruct (body w) as [w1 [a|e]]; simpl in *.
  - exact Hb.
  - destruct (catches e); simpl.
    + eapply R_trans; [exact Hb | apply Hh].
    + exact Hb.
Qed.

Lemma respects_for_each :
  forall (A : Type) (xs : list A) (body : A -> M unit),
    (forall x, In x xs -> respects R (body x)) -> respects R (for_each xs body).
Proof.
  intros A xs body. induction xs as [|x t IH]; intros Hbody; simpl.
  - apply respects_ret.
  - apply respects_bind.
    + apply Hbody. left. reflexivity.
    + intros _. apply IH. intros y Hy. apply Hbody. right. exact Hy.
Qed.

End Frame.

(** Applies the frame rules for the relation whose reflexivity and
    transitivity are [refl] and [trans]; [leaf] closes the calls. *)
Ltac frame refl trans leaf :=
  repeat first
    [ apply (respects_ret _ refl)
    | apply (respects_raise _ refl)
    | apply (respects_lift _ refl)
    | leaf
    | apply (respects_bind _ trans); [|intros ?]
    | apply (respects_try_except _ trans); [|intros ?]
    | apply (respects_for_each _ refl trans); intros ? _
    | match goal with
      | |- respects _ (if ?b then _ else _) => destruct b
      | |- respects _ (match ?x with _ => _ end) => destruct x
      | |- respects _ (let (_, _) := ?x in _) => destruct x
      end ].

(** * Properties of the software probe *)

Lemma same_log_refl : forall w, same_log w w.
Proof. intros w. split; reflexivity. Qed.

Lemma same_log_trans :
  forall a b c, same_log a b -> same_log b c -> same_log a c.
Proof.
  intros a b c [H1 H2] [H3 H4]. split; congruence.
Qed.

Lemma same_log_ptprint :
  forall msg bullet cond color ind,
    respects same_log (ptprint msg bullet cond color ind).
Proof. intros. intros w. split; reflexivity. Qed.

Lemma same_log_add_node :
  forall ty props, respects same_log (add_node ty props).
Proof. intros. intros w. split; reflexivity. Qed.

Ltac same_log_leaf :=
  first [ apply same_log_ptprint | apply same_log_add_node
        | unfold SwTest.error, SwTest.info; apply same_log_ptprint ].

(** A computation that starts with a request to [u] and logs nothing more
    leaves the request log longer by [u] and the vulnerabilities as they
    were. *)
Lemma one_request :
  forall (A : Type) (client : http_client) (u : string) (k : Response -> M A) w,
    (forall response, respects same_log (k response)) ->
    requests (world_after (bind (send_request client u) k) w) = (requests w ++ [u])%list /\
    vulnerabilities (world_after (bind (send_request client u) k) w) =
      vulnerabilities w.
Proof.
  intros A client u k w Hk. unfold world_after, bind, send_request.
  destruct (client u) as [response|e]; simpl.
  - destruct (Hk response
        (mk_world (printed w) (requests w ++ [u]) (nodes w) (vulnerabilities w)
           (heap w))) as [H1 H2].
    unfold world_after in H1, H2. simpl in H1, H2. split; assumption.
  - split; reflexivity.
Qed.

Lemma get_es_version_log :
  forall args client w,
    requests (world_after (SwTest._get_es_version args client) w) =
      (requests w ++ [url args])%list /\
    vulnerabilities (world_after (SwTest._get_es_version args client) w) =
      vulnerabilities w.
Proof.
  intros args client w. unfold SwTest._get_es_version. apply one_request.
  intros response. frame same_log_refl same_log_trans same_log_leaf.
Qed.

Lemma get_modules_log :
  forall args client w,
    requests (world_after (SwTest._get_modules args client) w) =
      (requests w ++ [(url args ++ "_nodes")%string])%list /\
    vulnerabilities (world_after (SwTest._get_modules args client) w) =
      vulnerabilities w.
Proof.
  intros args client w. unfold SwTest._get_modules. apply one_request.
  intros response. frame same_log_refl same_log_trans same_log_leaf.
Qed.

Lemma get_plugins_log :
  forall args client w,
    requests (world_after (SwTest._get_plugins args client) w) =
      (requests w ++ [(url args ++ "_cat/plugins")%string])%list /\
    vulnerabilities (world_after (SwTest._get_plugins args client) w) =
      vulnerabilities w.
Proof.
  intros args client w. unfold SwTest._get_plugins. apply one_request.
  intros response. frame same_log_refl same_log_trans same_log_leaf.
Qed.

(** A guarded enumeration never raises: it returns what the enumeration
    returned, or [False] when the enumeration raised, and logs no request or
    vulnerability of its own. *)
Lemma guarded_returns :
  forall args what (m : M bool) w,
    exists w',
      SwTest.guarded args what m w = (w', Ok (returned_true m w)) /\
      requests w' = requests (world_after m w) /\
      vulnerabilities w' = vulnerabilities (world_after m w).
Proof.
  intros args what m w.
  unfold SwTest.guarded, try_except, returned_true, world_after.
  destruct (m w) as [w1 [b|e]]; simpl.
  - exists w1. repeat split.
  - eexists. repeat split.
Qed.

(** C9.  [SwTest.run] never raises, whatever the client answers or raises:
    the three enumerations are all attempted, in order (each sends its
    request), and PTV-WEB-MISC-TECH is added exactly when one of them
    returned [True]. *)
Theorem sw_run_attempts_every_enumeration :
  forall args client w,
    let version := SwTest._get_es_version args client in
    let modules := SwTest._get_modules args client in
    let plugins := SwTest._get_plugins args client in
    let w1 := world_after (SwTest.guarded args "es version" version) w in
    let w2 := world_after (SwTest.guarded args "modules" modules) w1 in
    let found :=
      orb (orb (returned_true plugins w2) (returned_true modules w1))
        (returned_true version w) in
    exists w',
      SwTest.run args client w = (w', Ok tt) /\
      requests w' =
        (requests w ++
         [url args; (url args ++ "_nodes")%string;
          (url args ++ "_cat/plugins")%string])%list /\
      vulnerabilities w' =
        (vulnerabilities w ++
         (if found then ["PTV-WEB-MISC-TECH"] else []))%list.
Proof.
  intros args client w version modules plugins w1 w2 found.
  destruct (guarded_returns args "es version" version w) as (u1 & E1 & R1 & V1).
  assert (Hw1 : w1 = u1) by (unfold w1, world_after; rewrite E1; reflexivity).
  subst u1.
  destruct (guarded_returns args "modules" modules w1) as (u2 & E2 & R2 & V2).
  assert (Hw2 : w2 = u2) by (unfold w2, world_after; rewrite E2; reflexivity).
  subst u2.
  destruct (guarded_returns args "plugins" plugins w2) as (w3 & E3 & R3 & V3).
  destruct (get_es_version_log args client w) as [Q1 S1].
  destruct (get_modules_log args client w1) as [Q2 S2].
  destruct (get_plugins_log args client w2) as [Q3 S3].
  fold version in Q1, S1. fold modules in Q2, S2. fold plugins in Q3, S3.
  assert (Hreq : requests w3 =
    (requests w ++
     [url args; (url args ++ "_nodes")%string;
      (url args ++ "_cat/plugins")%string])%list).
  { rewrite R3, Q3, R2, Q2, R1, Q1, <- !app_assoc. reflexivity. }
  assert (Hvul : vulnerabilities w3 = vulnerabilities w).
  { rewrite V3, S3, V2, S2, V1, S1. reflexivity. }
  unfold SwTest.run. fold version modules plugins.
  unfold bind at 1. rewrite E1.
  unfold bind at 1. rewrite E2.
  unfold bind at 1. rewrite E3.
  fold found. destruct found.
  - eexists. split; [reflexivity|]. simpl. rewrite Hreq, Hvul. split; reflexivity.
  - exists w3. split; [reflexivity|]. rewrite Hreq, Hvul, app_nil_r.
    split; reflexivity.
Qed.

(** * Properties of the user enumeration *)

Lemma keys_kept_refl : forall w, keys_kept w w.
Proof. intros w a u H. exists u. repeat split. exact H. Qed.

Lemma keys_kept_same_heap : forall w w', heap w' = heap w -> keys_kept w w'.
Proof.
  intros w w' H a u Hu. exists u. rewrite H. repeat split. exact Hu.
Qed.

Lemma keys_kept_trans :
  forall a b c, keys_kept a b -> keys_kept b c -> keys_kept a c.
Proof.
  intros a b c Hab Hbc i u Hu.
  destruct (Hab i u Hu) as (u1 & H1 & N1 & K1).
  destruct (Hbc i u1 H1) as (u2 & H2 & N2 & K2).
  exists u2. repeat split; congruence.
Qed.

Lemma records_kept :
  forall w w' n name rs,
    keys_kept w w' -> records w n name rs -> records w' n name rs.
Proof.
  intros w w' n name rs Hk (a & u & Hn & Hu & Hname & Hr).
  destruct (Hk a u Hu) as (u' & Hu' & Hname' & Hr').
  exists a, u'. repeat split; congruence.
Qed.

Lemma printed_roles_app :
  forall l1 l2, printed_roles (l1 ++ l2) = (printed_roles l1 ++ printed_roles l2)%list.
Proof.
  induction l1 as [|c t IH]; intros l2; simpl.
  - reflexivity.
  - destruct (role_of_call c); simpl; rewrite IH; reflexivity.
Qed.

Lemma role_lines_refl : forall w, role_lines [] w w.
Proof.
  intros w. exists []. rewrite app_nil_r. repeat split.
  - apply keys_kept_refl.
  - simpl. lia.
  - intros v [].
Qed.

Lemma role_lines_app :
  forall k1 k2 a b c,
    role_lines k1 a b -> role_lines k2 b c -> role_lines (k1 ++ k2) a c.
Proof.
  intros k1 k2 a b c (l1 & P1 & N1 & K1 & L1 & I1) (l2 & P2 & N2 & K2 & L2 & I2).
  exists (l1 ++ l2)%list. repeat split.
  - rewrite P2, P1, app_assoc. reflexivity.
  - congruence.
  - eapply keys_kept_trans; eassumption.
  - rewrite printed_roles_app, !length_app. lia.
  - rewrite printed_roles_app. apply incl_app_app; assumption.
Qed.

Lemma role_lines_trans :
  forall a b c, role_lines [] a b -> role_lines [] b c -> role_lines [] a c.
Proof.
  intros a b c H1 H2. exact (role_lines_app [] [] a b c H1 H2).
Qed.

(** A printed line that announces no role. *)
Lemma role_lines_ptprint :
  forall msg bullet cond color ind,
    role_of_call (mk_ptprint msg bullet cond color ind) = None ->
    respects (role_lines []) (ptprint msg bullet cond color ind).
Proof.
  intros msg bullet cond color ind H w.
  exists [mk_ptprint msg bullet cond color ind]. repeat split.
  - apply keys_kept_same_heap. reflexivity.
  - simpl. rewrite H. simpl. lia.
  - simpl. rewrite H. intros v [].
Qed.

Lemma nth_error_update_nth :
  forall (A : Type) (l : list A) (i j : nat) (x y : A),
    nth_error l j = Some y ->
    nth_error (update_nth l i x) j = Some (if Nat.eqb i j then x else y).
Proof.
  intros A l. induction l as [|h t IH]; intros i j x y H.
  - destruct j; discriminate.
  - destruct i, j; simpl in *; try assumption.
    + congruence.
    + apply IH. exact H.
Qed.

Lemma hdict_append_keys :
  forall (A : Type) (d d' : list (hashable * list A)) (k : hashable) (x : A),
    hdict_append d k x = Some d' -> map fst d' = map fst d.
Proof.
  intros A d. induction d as [|[k' l] t IH]; intros d' k x H; simpl in H.
  - discriminate.
  - destruct (hashable_eqb k' k).
    + injection H as <-. reflexivity.
    + destruct (hdict_append t k x) as [t'|] eqn:E; simpl in H; [|discriminate].
      injection H as <-. simpl. f_equal. eapply IH. exact E.
Qed.

Lemma role_lines_roles_append :
  forall a role entry, respects (role_lines []) (roles_append a role entry).
Proof.
  intros a role entry w. unfold world_after, roles_append, read_user_properties, bind.
  destruct (nth_error (heap w) a) as [u|] eqn:Hu; simpl; [|apply role_lines_refl].
  destruct (hdict_append (roles u) role entry) as [roles'|] eqn:Hr; simpl;
    [|apply role_lines_refl].
  exists []. simpl. rewrite app_nil_r. repeat split.
  - intros b v Hb. simpl.
    rewrite (nth_error_update_nth _ _ a b _ v Hb).
    eexists. split; [reflexivity|].
    destruct (Nat.eqb_spec a b) as [->|_]; [|split; reflexivity].
    assert (v = u) by congruence. subst v.
    split; [reflexivity|].
    unfold role_names. simpl.
    rewrite <- !(map_map fst value_of_hashable).
    rewrite (hdict_append_keys _ _ _ _ _ Hr). reflexivity.
  - lia.
  - intros v [].
Qed.

Ltac role_lines_leaf :=
  first [ apply role_lines_roles_append
        | apply role_lines_ptprint; reflexivity ].

Lemma check_privileges_role_lines :
  forall args role role_privileges a,
    respects (role_lines []) (Users._check_privileges args role role_privileges a).
Proof.
  intros args role role_privileges a. unfold Users._check_privileges.
  frame role_lines_refl role_lines_trans role_lines_leaf.
Qed.

Lemma role_lines_weaken :
  forall k k' w w',
    role_lines k w w' -> List.length k <= List.length k' -> incl k k' ->
    role_lines k' w w'.
Proof.
  intros k k' w w' (l & P & N & K & L & I) Hlen Hincl.
  exists l. repeat split; try assumption.
  - lia.
  - intros v Hv. apply Hincl, I, Hv.
Qed.

Lemma role_lines_bind :
  forall (k1 k2 : list value) (A B : Type) (m : M A) (f : A -> M B),
    (forall w, role_lines k1 w (world_after m w)) ->
    (forall a w, role_lines k2 w (world_after (f a) w)) ->
    forall w, role_lines (k1 ++ k2) w (world_after (bind m f) w).
Proof.
  intros k1 k2 A B m f Hm Hf w. unfold world_after, bind.
  specialize (Hm w). unfold world_after in Hm.
  destruct (m w) as [w1 [a|e]]; simpl in *.
  - eapply role_lines_app; [exact Hm | apply Hf].
  - eapply role_lines_weaken; [exact Hm | |].
    + rewrite length_app. lia.
    + apply incl_appl, incl_refl.
Qed.

(** A printed line of the form of a role line announces the role it holds,
    or nothing. *)
Lemma role_lines_role_line :
  forall s v bullet cond color ind w,
    role_lines [v] w (world_after (ptprint [Lit s; FVal v] bullet cond color ind) w).
Proof.
  intros s v bullet cond color ind w.
  exists [mk_ptprint [Lit s; FVal v] bullet cond color ind].
  split; [reflexivity|]. split; [reflexivity|].
  split; [apply keys_kept_same_heap; reflexivity|].
  assert (E : role_of_call (mk_ptprint [Lit s; FVal v] bullet cond color ind) = Some v
              \/ role_of_call (mk_ptprint [Lit s; FVal v] bullet cond color ind) = None).
  { unfold role_of_call. cbn [text_of].
    match goal with
    | |- context [if ?b then _ else _] => destruct b
    end; [left | right]; reflexivity. }
  cbn [printed_roles]. destruct E as [-> | ->]; cbn [List.length].
  - split; [lia | apply incl_refl].
  - split; [lia | intros x []].
Qed.

(** The loop of [_print_user] announces the roles it runs over, at most. *)
Lemma print_user_loop :
  forall args a check_roles role_privileges (ks : list hashable) w,
    role_lines (map value_of_hashable ks) w
      (world_after
         (for_each ks (Users.print_role args a check_roles role_privileges)) w).
Proof.
  intros args a check_roles role_privileges ks.
  induction ks as [|k t IH]; intros w.
  - apply role_lines_refl.
  - cbn [for_each map].
    change (value_of_hashable k :: map value_of_hashable t)
      with (([value_of_hashable k] ++ []) ++ map value_of_hashable t)%list.
    apply role_lines_bind; [|intros _; exact IH].
    unfold Users.print_role. apply role_lines_bind.
    + intros w0. destruct (hashable_eqb k (HStr "superuser"));
        apply role_lines_role_line.
    + intros _ w0. destruct check_roles.
      * apply check_privileges_role_lines.
      * apply role_lines_ptprint. reflexivity.
Qed.

Lemma print_user_role_lines :
  forall args a check_roles role_privileges u w,
    nth_error (heap w) a = Some u ->
    role_lines (role_names u) w
      (world_after (Users._print_user args a check_roles role_privileges) w).
Proof.
  intros args a check_roles role_privileges u w Hu.
  unfold Users._print_user.
  unfold world_after, bind at 1, read_user_properties. rewrite Hu.
  change (role_names u) with ([] ++ ([] ++ role_names u))%list.
  apply role_lines_bind.
  { apply role_lines_ptprint. reflexivity. }
  intros _. apply role_lines_bind.
  { apply role_lines_ptprint. reflexivity. }
  intros _ w0. unfold role_names.
  rewrite <- (map_map fst value_of_hashable). apply print_user_loop.
Qed.

(** [dict(zip(roles, [[]]))] holds the first of the roles, if any. *)
Lemma zip_with_one_list :
  forall (items : list value) (d : list (hashable * list (string * value))),
    dict_of_pairs (combine items [[]]) [] = Ok d ->
    map (fun kv => value_of_hashable (fst kv)) d = firstn 1 items.
Proof.
  intros items d H. destruct items as [|x t]; simpl in H.
  - injection H as <-. reflexivity.
  - assert (Ht : combine t (@nil (list (string * value))) = []) by (destruct t; reflexivity).
    rewrite Ht in H. destruct x; simpl in H; try discriminate;
      injection H as <-; reflexivity.
Qed.

Lemma user_turn_kept :
  forall args client w w' turn,
    keys_kept w w' ->
    user_turn args client w turn -> user_turn args client w' turn.
Proof.
  intros args client w w' turn Hk
    (user & name & rs & role_list & H1 & H2 & H3 & H4 & H5 & H6).
  exists user, name, rs, role_list. repeat split; try assumption.
  eapply records_kept; eassumption.
Qed.

(** Nothing printed, recorded or allocated in between. *)
Lemma enumerated_same :
  forall args client w w',
    printed w' = printed w -> nodes w' = nodes w -> heap w' = heap w ->
    enumerated args client w w'.
Proof.
  intros args client w w' Hp Hn Hh. exists [], [].
  cbn [map concat]. rewrite !app_nil_r. repeat split; try assumption.
  - apply keys_kept_same_heap. exact Hh.
  - constructor.
Qed.

Lemma enumerated_refl : forall args client w, enumerated args client w w.
Proof. intros. apply enumerated_same; reflexivity. Qed.

Lemma enumerated_trans :
  forall args client a b c,
    enumerated args client a b -> enumerated args client b c ->
    enumerated args client a c.
Proof.
  intros args client a b c
    (l1 & t1 & P1 & N1 & K1 & R1 & F1) (l2 & t2 & P2 & N2 & K2 & R2 & F2).
  exists (l1 ++ l2)%list, (t1 ++ t2)%list. repeat split.
  - rewrite P2, P1, app_assoc. reflexivity.
  - rewrite N2, N1, map_app, app_assoc. reflexivity.
  - eapply keys_kept_trans; eassumption.
  - rewrite printed_roles_app, map_app, concat_app, R1, R2. reflexivity.
  - apply Forall_app. split; [|exact F2].
    eapply Forall_impl; [|exact F1].
    intros turn. apply user_turn_kept. exact K2.
Qed.

(** A line that announces no role. *)
Lemma enumerated_ptprint :
  forall args client msg bullet cond color ind,
    role_of_call (mk_ptprint msg bullet cond color ind) = None ->
    respects (enumerated args client) (ptprint msg bullet cond color ind).
Proof.
  intros args client msg bullet cond color ind H w.
  exists [mk_ptprint msg bullet cond color ind], [].
  cbn [map concat]. rewrite app_nil_r. repeat split.
  - apply keys_kept_same_heap. reflexivity.
  - simpl. rewrite H. reflexivity.
  - constructor.
Qed.

(** Role lines for at most one role announce nothing or that role. *)
Lemma announced_nothing_or_all :
  forall announced allowed : list value,
    List.length allowed <= 1 ->
    List.length announced <= List.length allowed ->
    incl announced allowed ->
    announced = [] \/ announced = allowed.
Proof.
  intros announced allowed H1 H2 Hincl.
  destruct announced as [|x t]; [left; reflexivity|]. right.
  destruct allowed as [|y [|z u]]; simpl in *; try lia.
  destruct t; simpl in *; [|lia].
  destruct (Hincl x (or_introl eq_refl)) as [->|[]]. reflexivity.
Qed.

(** A user node has been recorded with the object [u], newly allocated, and
    then role lines were printed for the roles of [u] at most. *)
Lemma enumerated_one_user :
  forall args client w u w2 user rs role_list,
    let a := List.length (heap w) in
    let n := mk_node "user" (UserProps a) in
    let w1 := mk_world (printed w) (requests w) (nodes w ++ [n])
                (vulnerabilities w) (heap w ++ [u]) in
    user_of_answer args client user ->
    getitem user "username" = Ok (username u) ->
    getitem user "roles" = Ok rs ->
    iterate rs = Ok role_list ->
    role_names u = firstn 1 role_list ->
    role_lines (role_names u) w1 w2 ->
    enumerated args client w w2.
Proof.
  intros args client w u w2 user rs role_list a n w1 Hsrc Hname Hrs Hit Hroles
    (l & P & N & K & L & I).
  assert (Hu : nth_error (heap w1) a = Some u).
  { unfold w1, a. simpl. rewrite nth_error_app2 by lia.
    rewrite Nat.sub_diag. reflexivity. }
  assert (K1 : keys_kept w w1).
  { intros b v Hb. exists v. split; [|split; reflexivity].
    unfold w1. simpl. rewrite nth_error_app1; [exact Hb|].
    apply nth_error_Some. congruence. }
  exists l, [(n, printed_roles l)]. cbn [map concat fst snd].
  rewrite app_nil_r. repeat split.
  - exact P.
  - exact N.
  - eapply keys_kept_trans; eassumption.
  - constructor; [|constructor].
    exists user, (username u), rs, role_list. cbn [fst snd].
    repeat (split; [assumption|]). split.
    + eapply records_kept; [exact K|]. exists a, u. repeat split; assumption.
    + rewrite <- Hroles. apply announced_nothing_or_all; try assumption.
      rewrite Hroles. destruct role_list; simpl; lia.
Qed.

Section UsersProperties.

Variable args : Args.
Variable client : http_client.
Variable users : value.
Variable entries : list value.
Hypothesis answered : users_answer args client = Ok users.
Hypothesis iterated : iterate users = Ok entries.

(** One turn of the loop of [run]. *)
Lemma enumerate_user_enumerated :
  forall check_roles response entry,
    In entry entries ->
    respects (enumerated args client)
      (Users.enumerate_user args users check_roles response entry).
Proof.
  intros check_roles response entry Hin w.
  unfold world_after, Users.enumerate_user.
  unfold bind at 1, lift.
  destruct (rbind (hash_key entry) (subscript users)) as [user|] eqn:Huser;
    [|apply enumerated_refl].
  unfold bind at 1.
  destruct (getitem user "roles") as [rs|] eqn:Hrs; cbn [rbind];
    [|apply enumerated_refl].
  destruct (iterate rs) as [role_list|] eqn:Hit; cbn [rbind];
    [|apply enumerated_refl].
  destruct (dict_of_pairs (combine role_list [[]]) []) as [roles|] eqn:Hd;
    [|apply enumerated_refl].
  unfold bind at 1.
  destruct (getitem user "username") as [name|] eqn:Hname;
    [|apply enumerated_refl].
  unfold bind at 1.
  destruct (getitem user "email") as [mail|]; [|apply enumerated_refl].
  assert (Hroles : role_names (mk_user name mail roles) = firstn 1 role_list).
  { unfold role_names. simpl. apply zip_with_one_list. exact Hd. }
  unfold bind at 1, new_user_properties.
  unfold bind at 1, add_node. cbn [printed requests nodes vulnerabilities heap].
  apply (enumerated_one_user args client w (mk_user name mail roles) _
           user rs role_list).
  - exists users, entries, entry. repeat split; assumption.
  - exact Hname.
  - exact Hrs.
  - exact Hit.
  - exact Hroles.
  - unfold bind at 1.
    destruct (Response_json response) as [role_privileges|].
    + apply print_user_role_lines. simpl.
      rewrite nth_error_app2 by lia. rewrite Nat.sub_diag. reflexivity.
    + eapply role_lines_weaken; [apply role_lines_refl | simpl; lia |].
      intros v [].
Qed.

End UsersProperties.

(** C10.  Whatever the client answers, and from any world, [Users.run] goes
    through turns, one per user it records: the node of a turn holds the
    username of the user and the first role only of the user's roles (no
    role when the user has none), however many roles the user has, and the
    role lines printed in the turn announce that one role or nothing. *)
Theorem users_run_records_first_role_only :
  forall args client w,
    enumerated args client w (world_after (Users.run args client) w).
Proof.
  intros args client w. unfold world_after, Users.run.
  unfold bind at 1, send_request.
  destruct (client (url args ++ "_security/user")%string) as [response|] eqn:Hc;
    [|apply enumerated_same; reflexivity].
  destruct (negb (status_code response =? 200)%Z).
  - apply (enumerated_trans _ _ _
             (mk_world (printed w) (requests w ++ [(url args ++ "_security/user")%string])
                (nodes w) (vulnerabilities w) (heap w))).
    + apply enumerated_same; reflexivity.
    + apply enumerated_ptprint. reflexivity.
  - unfold bind at 1, lift.
    destruct (Response_json response) as [users|] eqn:Hj;
      [|apply enumerated_same; reflexivity].
    unfold bind at 1, send_request. cbn [printed requests nodes vulnerabilities heap].
    destruct (client (url args ++ "_security/role")%string) as [response2|];
      [|apply enumerated_same; reflexivity].
    unfold bind at 1, lift.
    destruct (iterate users) as [entries|] eqn:Hit;
      [|apply enumerated_same; reflexivity].
    set (w1 := mk_world (printed w)
                 ((requests w ++ [(url args ++ "_security/user")%string]) ++
                  [(url args ++ "_security/role")%string])
                 (nodes w) (vulnerabilities w) (heap w)).
    apply (enumerated_trans _ _ _ w1); [apply enumerated_same; reflexivity|].
    apply (respects_for_each (enumerated args client)
             (enumerated_refl args client) (enumerated_trans args client)).
    intros entry Hin.
    apply (enumerate_user_enumerated args client users entries); try assumption.
    unfold users_answer. rewrite Hc. exact Hj.
Qed.

(** The user enumeration on a target with users of two, no and three roles:
    the report holds [superuser] alone for the first, no role for the
    second and [viewer] alone for the third, and two role lines are
    printed. *)
Example three_users_first_roles :
  let w := world_after (Users.run plain_args three_users_target) empty_world in
  map node_properties (nodes w) = [UserProps 0; UserProps 1; UserProps 2] /\
  map role_names (heap w) = [[VStr "superuser"]; []; [VStr "viewer"]] /\
  printed_roles (printed w) = [VStr "superuser"; VStr "viewer"].
Proof.
  vm_compute. repeat split.
Qed.

(** The software probe on a target whose root document lacks a key (the
    version enumeration returns [False]), whose node list is not JSON (the
    module enumeration raises) and whose plugin table is well formed: all
    three requests are sent and the vulnerability is added. *)
Example half_open_target_reported :
  let w := world_after (SwTest.run plain_args half_open_target) empty_world in
  returned_true (SwTest._get_es_version plain_args half_open_target) empty_world = false /\
  snd (SwTest._get_modules plain_args half_open_target empty_world) = Raise JSONDecodeError /\
  requests w = ["http://target:9200/"; "http://target:9200/_nodes";
                "http://target:9200/_cat/plugins"] /\
  vulnerabilities w = ["PTV-WEB-MISC-TECH"].
Proof.
  vm_compute. repeat split.
Qed.

(** The software probe on a target that refuses every connection: the three
    requests are sent all the same, and no vulnerability is added. *)
Example unreachable_target_not_reported :
  SwTest.run plain_args unreachable_target empty_world =
  (mk_world
     [mk_ptprint [Lit "Error when enumerating es version: "; FExn RequestException]
        "ERROR" true false 4;
      mk_ptprint [Lit "Error when enumerating modules: "; FExn RequestException]
        "ERROR" true false 4;
      mk_ptprint [Lit "Error when enumerating plugins: "; FExn RequestException]
        "ERROR" true false 4]
     ["http://target:9200/"; "http://target:9200/_nodes";
      "http://target:9200/_cat/plugins"]
     [] [] [], Ok tt).
Proof.
  vm_compute. reflexivity.
Qed.

(** * Further branches of the availability probe *)

Section IsElasticBranches.

Import Signals.

Variable args : Args.
Variable client : http_client.
Variable r : Response.
Hypothesis answered : client (url args) = Ok r.

(** X1.  A JSON 401 whose body decodes as JSON and names the product is
    classified Confirmed, whatever the decoded value is. *)
Theorem unauthorized_json_naming_product_confirmed :
  forall decoded,
    has_json_content_type r = true ->
    status_code r = 401%Z ->
    Response_json r = Ok decoded ->
    body_mentions_product r = true ->
    classify args client = Ok [Confirmed].
Proof.
  intros decoded Hct Hst Hjson Hbody. unfold classify.
  rewrite (run_after_request args client r answered).
  unfold IsElastic.inspect, bind at 1. rewrite (content_type_accepted args r Hct), Hst.
  change (401 =? 401)%Z with true. cbv iota.
  unfold bind at 1, lift. rewrite Hjson.
  unfold try_except, IsElastic._check_text.
  unfold body_mentions_product in Hbody. rewrite Hbody. cbn.
  rewrite verdicts_preamble. reflexivity.
Qed.

(** X2.  A JSON 401 whose body decodes as JSON, does not name the product
    and lacks a key on the way to error.root_cause[0].type is classified
    NotDetected. *)
Theorem unauthorized_missing_key_not_detected :
  forall decoded k,
    has_json_content_type r = true ->
    status_code r = 401%Z ->
    Response_json r = Ok decoded ->
    body_mentions_product r = false ->
    rbind (getitem decoded "error") (fun e =>
    rbind (getitem e "root_cause") (fun rc =>
    rbind (getitem_int rc 0) (fun first => getitem first "type")))
      = Raise (KeyError k) ->
    classify args client = Ok [NotDetected].
Proof.
  intros decoded k Hct Hst Hjson Hbody Hkey. unfold classify.
  rewrite (run_after_request args client r answered).
  unfold IsElastic.inspect, bind at 1. rewrite (content_type_accepted args r Hct), Hst.
  change (401 =? 401)%Z with true. cbv iota.
  unfold bind at 1, lift. rewrite Hjson.
  unfold try_except, IsElastic._check_text.
  unfold body_mentions_product in Hbody. rewrite Hbody.
  unfold bind, lift. rewrite Hkey. cbn.
  rewrite verdicts_preamble. reflexivity.
Qed.

(** X3.  A JSON 200 without X-elastic-product header whose body names the
    product is classified Confirmed. *)
Theorem ok_without_header_naming_product_confirmed :
  has_json_content_type r = true ->
  status_code r = 200%Z ->
  product_header_value r = None ->
  body_mentions_product r = true ->
  classify args client = Ok [Confirmed].
Proof.
  intros Hct Hst Hprod Hbody. unfold classify.
  rewrite (run_after_request args client r answered).
  unfold IsElastic.inspect, bind at 1. rewrite (content_type_accepted args r Hct), Hst.
  change (200 =? 401)%Z with false. change (200 =? 200)%Z with true. cbv iota.
  unfold product_header_value in Hprod.
  unfold try_except, bind, lift, header_getitem. rewrite Hprod.
  unfold IsElastic._check_text.
  unfold body_mentions_product in Hbody. rewrite Hbody. cbn.
  rewrite verdicts_preamble. reflexivity.
Qed.

End IsElasticBranches.

Lemma unauthorized_json_naming_product_example :
  classify plain_args (always unauthorized_json_naming_product) = Ok [Confirmed].
Proof.
  apply (unauthorized_json_naming_product_confirmed plain_args
           (always unauthorized_json_naming_product)
           unauthorized_json_naming_product eq_refl
           (VDict [("error",
                    VStr "Elasticsearch security: missing authentication credentials")]));
    reflexivity.
Defined.

Lemma unauthorized_missing_key_example :
  classify plain_args (always unauthorized_no_error_key) = Ok [NotDetected].
Proof.
  apply (unauthorized_missing_key_not_detected plain_args
           (always unauthorized_no_error_key) unauthorized_no_error_key eq_refl
           (VDict [("message", VStr "Unauthorized")]) (KHash (HStr "error")));
    reflexivity.
Defined.

Lemma ok_without_header_naming_product_example :
  classify plain_args (always ok_naming_product) = Ok [Confirmed].
Proof.
  apply (ok_without_header_naming_product_confirmed plain_args
           (always ok_naming_product) ok_naming_product); reflexivity.
Defined.

(** * Properties of the HTTP/S probe *)

Lemma prefix_app : forall p s, String.prefix p (p ++ s) = true.
Proof.
  induction p as [|c p IH]; intros s; simpl.
  - destruct s; reflexivity.
  - destruct (ascii_dec c c) as [_|N]; [apply IH | contradiction].
Qed.

Lemma contains_prefix : forall p s, contains p (p ++ s) = true.
Proof.
  intros p s. pose proof (prefix_app p s) as H.
  destruct (p ++ s)%string; cbn [contains]; rewrite H; reflexivity.
Qed.

Lemma contains_cons :
  forall p c s, contains p s = true -> contains p (String c s) = true.
Proof.
  intros p c s H. cbn [contains].
  destruct (String.prefix p (String c s)); [reflexivity | exact H].
Qed.

Lemma contains_app_left :
  forall p a s, contains p s = true -> contains p (a ++ s) = true.
Proof.
  intros p a s H. induction a as [|c a IH]; simpl.
  - exact H.
  - apply contains_cons. exact IH.
Qed.

(** The URL [_check_url] returns names a scheme. *)
Lemma check_url_has_scheme :
  forall args,
    orb (contains "http://" (HttpTest._check_url args))
        (contains "https://" (HttpTest._check_url args)) = true.
Proof.
  intros args. unfold HttpTest._check_url. cbv zeta.
  destruct (contains "http://" (url args)) eqn:E1; cbn [negb andb].
  - rewrite E1. reflexivity.
  - destruct (contains "https://" (url args)) eqn:E2; cbn [negb andb].
    + rewrite E1, E2. reflexivity.
    + rewrite (contains_prefix "http://" (url args)). reflexivity.
Qed.

(** X4.  [_check_url] returns a URL that names a scheme ("http://" or
    "https://" occurs in it), and checking that URL again changes nothing. *)
Theorem check_url_idempotent :
  forall args,
    let u := HttpTest._check_url args in
    orb (contains "http://" u) (contains "https://" u) = true /\
    HttpTest._check_url (with_url args u) = u.
Proof.
  intros args u. pose proof (check_url_has_scheme args) as H. fold u in H.
  split; [exact H|].
  unfold HttpTest._check_url at 1. cbn [url with_url].
  destruct (contains "http://" u); simpl in *; [reflexivity|].
  rewrite H. reflexivity.
Qed.

(** What [HttpTest.run] does, by cases. *)
Lemma http_run_outcome :
  forall args client w,
    let u := HttpTest._check_url args in
    HttpTest.run args client w =
    if contains "http://" u then
      let w1 := mk_world (printed w) (requests w ++ [u]) (nodes w)
                  (vulnerabilities w) (heap w) in
      match client u with
      | Ok r =>
          if orb (status_code r =? 200)%Z (status_code r =? 401)%Z then
            (mk_world
               (printed w ++
                [mk_ptprint [Lit "The host is running HTTP"] "VULN"
                   (negb (json args)) false 4])
               (requests w ++ [u]) (nodes w)
               (vulnerabilities w ++ ["PTV-ELASTIC-MISC-HTTP"]) (heap w), Ok tt)
          else
            (mk_world
               (printed w ++
                [mk_ptprint [Lit "The host is not running on HTTP"] "INFO"
                   (negb (json args)) false 4])
               (requests w ++ [u]) (nodes w) (vulnerabilities w) (heap w), Ok tt)
      | Raise e => (w1, Raise e)
      end
    else
      (mk_world
         (printed w ++
          [mk_ptprint [Lit "The host is not running on HTTP"] "INFO"
             (negb (json args)) false 4])
         (requests w) (nodes w) (vulnerabilities w) (heap w), Ok tt).
Proof.
  intros args client w u. unfold HttpTest.run. fold u.
  destruct (contains "http://" u); [|reflexivity].
  unfold HttpTest._check_http, bind, send_request.
  destruct (client u) as [r|e]; [|reflexivity].
  destruct (orb (status_code r =? 200)%Z (status_code r =? 401)%Z); reflexivity.
Qed.

(** X5.  [HttpTest.run] sends one request, to the checked URL, when
    "http://" occurs in it, and none otherwise; it adds PTV-ELASTIC-MISC-HTTP
    exactly when that request is answered with status 200 or 401; and it
    raises exactly when the request raises. *)
Theorem http_probe_reports_iff_answered :
  forall args client w,
    let u := HttpTest._check_url args in
    let probed := contains "http://" u in
    let answered :=
      match client u with
      | Ok r => orb (status_code r =? 200)%Z (status_code r =? 401)%Z
      | Raise _ => false
      end in
    let w' := world_after (HttpTest.run args client) w in
    requests w' = (requests w ++ (if probed then [u] else []))%list /\
    vulnerabilities w' =
      (vulnerabilities w ++
       (if andb probed answered then ["PTV-ELASTIC-MISC-HTTP"] else []))%list /\
    snd (HttpTest.run args client w) =
      (if probed
       then match client u with Ok _ => Ok tt | Raise e => Raise e end
       else Ok tt).
Proof.
  intros args client w u probed answered w'.
  unfold w', world_after. rewrite (http_run_outcome args client w).
  fold u. fold probed. unfold answered.
  destruct probed; simpl.
  - destruct (client u) as [r|e]; simpl.
    + destruct (orb (status_code r =? 200)%Z (status_code r =? 401)%Z); simpl;
        rewrite ?app_nil_r; repeat split.
    + rewrite app_nil_r. repeat split.
  - rewrite !app_nil_r. repeat split.
Qed.

(** X6.  A URL whose scheme is https but in which "http://" occurs further on
    is probed as it stands, and the host is reported as running HTTP when it
    answers 200. *)
Theorem https_url_naming_http_is_reported :
  forall args client r host rest w,
    url args = ("https://" ++ host ++ "http://" ++ rest)%string ->
    client (url args) = Ok r ->
    status_code r = 200%Z ->
    HttpTest._check_url args = url args /\
    requests (world_after (HttpTest.run args client) w) =
      (requests w ++ [url args])%list /\
    vulnerabilities (world_after (HttpTest.run args client) w) =
      (vulnerabilities w ++ ["PTV-ELASTIC-MISC-HTTP"])%list.
Proof.
  intros args client r host rest w Hurl Hc Hst.
  assert (Hin : contains "http://" (url args) = true).
  { rewrite Hurl. apply (contains_app_left "http://" "https://").
    apply contains_app_left. apply contains_prefix. }
  assert (Hu : HttpTest._check_url args = url args).
  { unfold HttpTest._check_url. cbv zeta. rewrite Hin. reflexivity. }
  split; [exact Hu|].
  unfold world_after. rewrite (http_run_outcome args client w). cbv zeta.
  rewrite Hu, Hin, Hc, Hst. simpl. split; reflexivity.
Qed.

Lemma https_url_naming_http_example :
  HttpTest._check_url (with_url plain_args https_url_with_http_query) =
    https_url_with_http_query /\
  requests (world_after
              (HttpTest.run (with_url plain_args https_url_with_http_query)
                 (always scenario_B)) empty_world) =
    [https_url_with_http_query] /\
  vulnerabilities (world_after
              (HttpTest.run (with_url plain_args https_url_with_http_query)
                 (always scenario_B)) empty_world) =
    ["PTV-ELASTIC-MISC-HTTP"].
Proof.
  apply (https_url_naming_http_is_reported
           (with_url plain_args https_url_with_http_query) (always scenario_B)
           scenario_B "target:9200/?next=" "example.org/" empty_world);
    reflexivity.
Defined.

(** * The availability probe as a table *)

(** The probe prints what the table says, whatever [args] are. *)
Lemma classify_by_table :
  forall args client r,
    client (url args) = Ok r -> classify args client = verdict_table r.
Proof.
  intros args client r Hc. unfold classify, verdict_table.
  rewrite (run_after_request args client r Hc).
  unfold IsElastic.inspect, bind at 1.
  destruct (Signals.has_json_content_type r) eqn:Hct; cbn [negb].
  2:{ rewrite (content_type_refused args r Hct). cbn [ret printed].
      rewrite verdicts_preamble. reflexivity. }
  rewrite (content_type_accepted args r Hct).
  destruct (status_code r =? 401)%Z.
  - unfold bind at 1, lift.
    destruct (Response_json r) as [response_json|e]; [|reflexivity].
    unfold try_except, IsElastic._check_text, Signals.body_mentions_product.
    destruct (contains "elasticsearch" (lower (text r))).
    + cbn. rewrite verdicts_preamble. reflexivity.
    + unfold bind, lift. fold (error_type response_json).
      destruct (error_type response_json) as [ty|e].
      * destruct (eq_str ty "security_exception"); cbn;
          rewrite ?verdicts_preamble; try reflexivity.
        unfold after_preamble. cbn. rewrite <- (app_nil_r (preamble args r)).
        rewrite verdicts_preamble. reflexivity.
      * destruct e; cbn; rewrite ?verdicts_preamble; reflexivity.
  - destruct (status_code r =? 200)%Z.
    + unfold try_except, bind, lift, header_getitem, Signals.product_header_value.
      destruct (header_lookup (headers r) "X-elastic-product") as [product|].
      * destruct (String.eqb product "Elasticsearch"); cbn;
          rewrite ?verdicts_preamble; try reflexivity.
        rewrite <- (app_nil_r (preamble args r)).
        rewrite verdicts_preamble. reflexivity.
      * cbn [is_KeyError].
        unfold IsElastic._check_text, Signals.body_mentions_product.
        destruct (contains "elasticsearch" (lower (text r))); cbn;
          rewrite ?verdicts_preamble; try reflexivity.
        rewrite <- (app_nil_r (preamble args r)).
        rewrite verdicts_preamble. reflexivity.
    + cbn. rewrite verdicts_preamble. reflexivity.
Qed.



Lemma verdict_table_short :
  forall r vs, verdict_table r = Ok vs -> List.length vs <= 1.
Proof.
  intros r vs. unfold verdict_table.
  repeat match goal with
         | |- context [if ?b then _ else _] => destruct b
         | |- context [match ?x with _ => _ end] => destruct x
         end;
    intros H; try discriminate; injection H as <-; simpl; lia.
Qed.

(** X8.  A run of the availability probe that returns has printed at most one
    verdict line. *)
Theorem at_most_one_verdict :
  forall args client vs,
    classify args client = Ok vs -> List.length vs <= 1.
Proof.
  intros args client vs H.
  destruct (client (url args)) as [r|e] eqn:Hc.
  - rewrite (classify_by_table args client r Hc) in H.
    eapply verdict_table_short. exact H.
  - unfold classify, IsElastic.run, bind, send_request in H.
    rewrite Hc in H. discriminate.
Qed.

Lemma at_most_one_verdict_example :
  classify plain_args (always scenario_A) = Ok [Likely] /\
  List.length [Likely] <= 1.
Proof.
  split; [reflexivity|].
  apply (at_most_one_verdict plain_args (always scenario_A) [Likely]).
  reflexivity.
Defined.







Lemma lower_app : forall a b, lower (a ++ b) = (lower a ++ lower b)%string.
Proof.
  induction a as [|c a IH]; intros b; simpl; [reflexivity|].
  rewrite IH. reflexivity.
Qed.

(** X10.  [_check_text] finds the product name in any mix of capitals: a body
    in which a word occurs whose lower-case form is "elasticsearch" names the
    product. *)
Theorem check_text_ignores_case :
  forall r before word after,
    text r = (before ++ word ++ after)%string ->
    lower word = "elasticsearch" ->
    IsElastic._check_text r = true.
Proof.
  intros r before word after Htext Hword. unfold IsElastic._check_text.
  rewrite Htext, !lower_app, Hword.
  apply contains_app_left. apply contains_prefix.
Qed.

Lemma check_text_ignores_case_example :
  IsElastic._check_text ok_naming_product_in_capitals = true.
Proof.
  apply (check_text_ignores_case ok_naming_product_in_capitals
           (dq "{'tagline':'Powered by ") "ELASTICSearch" (dq "'}"));
    reflexivity.
Defined.

(** * Properties of the plugin enumeration *)

Lemma split_free :
  forall c s, free_of c s = true -> split c s = [s].
Proof.
  intros c s. induction s as [|c' t IH]; intros H; simpl in *.
  - reflexivity.
  - apply andb_prop in H. destruct H as [H1 H2].
    apply negb_true_iff in H1. rewrite H1, (IH H2). reflexivity.
Qed.

Lemma split_app :
  forall c s rest,
    free_of c s = true ->
    split c (s ++ String c rest) = s :: split c rest.
Proof.
  intros c s rest. induction s as [|c' t IH]; intros H; simpl in *.
  - rewrite Ascii.eqb_refl. reflexivity.
  - apply andb_prop in H. destruct H as [H1 H2].
    apply negb_true_iff in H1. rewrite H1, (IH H2). reflexivity.
Qed.

Lemma append_empty : forall s, (s ++ EmptyString)%string = s.
Proof.
  induction s as [|c t IH]; simpl; [reflexivity | rewrite IH; reflexivity].
Qed.

(** The fields of a line: [list(filter(None, line.split(" ")))]. *)
Lemma fields_spaces :
  forall n rest,
    filter (fun s => negb (String.eqb s EmptyString))
      (split space (spaces n ++ rest)) =
    filter (fun s => negb (String.eqb s EmptyString)) (split space rest).
Proof.
  induction n as [|n IH]; intros rest; simpl.
  - reflexivity.
  - exact (IH rest).
Qed.

Lemma fields_column :
  forall s n rest,
    column s = true ->
    filter (fun s => negb (String.eqb s EmptyString))
      (split space (s ++ spaces (S n) ++ rest)) =
    s :: filter (fun s => negb (String.eqb s EmptyString)) (split space rest).
Proof.
  intros s n rest H. unfold column in H.
  apply andb_prop in H. destruct H as [Hne H].
  apply andb_prop in H. destruct H as [Hsp _].
  change (spaces (S n) ++ rest)%string with (String space (spaces n ++ rest)).
  rewrite (split_app space s _ Hsp). cbn [filter]. rewrite Hne.
  f_equal. apply fields_spaces.
Qed.

Lemma fields_last_column :
  forall s n,
    column s = true ->
    filter (fun s => negb (String.eqb s EmptyString))
      (split space (s ++ spaces n)) = [s].
Proof.
  intros s n H. destruct n as [|n].
  - unfold column in H.
    apply andb_prop in H. destruct H as [Hne H].
    apply andb_prop in H. destruct H as [Hsp _].
    cbn [spaces]. rewrite append_empty, (split_free space s Hsp).
    cbn [filter]. rewrite Hne. reflexivity.
  - rewrite <- (append_empty (spaces (S n))).
    rewrite (fields_column s n EmptyString H). reflexivity.
Qed.

Lemma row_fields :
  forall row,
    row_ok row = true ->
    filter (fun s => negb (String.eqb s EmptyString))
      (split space (row_text row)) =
    [row_node row; row_name row; row_version row].
Proof.
  intros row H. unfold row_ok in H.
  apply andb_prop in H. destruct H as [H1 H].
  apply andb_prop in H. destruct H as [H2 H3].
  unfold row_text.
  rewrite (fields_column _ _ _ H1), (fields_column _ _ _ H2),
    (fields_last_column _ _ H3).
  reflexivity.
Qed.

Lemma free_of_app :
  forall c a b, free_of c (a ++ b) = andb (free_of c a) (free_of c b).
Proof.
  intros c a b. induction a as [|c' t IH]; simpl; [reflexivity|].
  rewrite IH, andb_assoc. reflexivity.
Qed.

Lemma free_of_spaces : forall n, free_of newline (spaces n) = true.
Proof. induction n as [|n IH]; simpl; [reflexivity | exact IH]. Qed.

Lemma row_text_one_line :
  forall row, row_ok row = true -> free_of newline (row_text row) = true.
Proof.
  intros row H. unfold row_ok, column in H.
  repeat match goal with
         | H : andb _ _ = true |- _ => apply andb_prop in H; destruct H
         end.
  unfold row_text. rewrite !free_of_app, !free_of_spaces.
  repeat match goal with
         | H : free_of newline _ = true |- _ => rewrite H; clear H
         end.
  reflexivity.
Qed.

Lemma table_lines :
  forall rows,
    forallb row_ok rows = true ->
    split newline (table_text rows) = (map row_text rows ++ [EmptyString])%list.
Proof.
  induction rows as [|row t IH]; intros H; simpl in *.
  - reflexivity.
  - apply andb_prop in H. destruct H as [H1 H2].
    rewrite (split_app newline _ _ (row_text_one_line row H1)), (IH H2).
    reflexivity.
Qed.

Lemma emit_nothing : forall w, emit w [] [] = w.
Proof. intros [p r n v h]. unfold emit. simpl. rewrite !app_nil_r. reflexivity. Qed.

Lemma emit_emit :
  forall w l1 n1 l2 n2,
    emit (emit w l1 n1) l2 n2 = emit w (l1 ++ l2) (n1 ++ n2).
Proof.
  intros w l1 n1 l2 n2. unfold emit. simpl. rewrite !app_assoc. reflexivity.
Qed.

Lemma split_not_nil : forall c s, split c s <> [].
Proof.
  intros c s. destruct s as [|c' t]; simpl; [discriminate|].
  destruct (Ascii.eqb c' c); [discriminate|].
  destruct (split c t); discriminate.
Qed.

Lemma removelast_map :
  forall (A B : Type) (f : A -> B) (l : list A),
    removelast (map f l) = map f (removelast l).
Proof.
  intros A B f l. induction l as [|x t IH]; [reflexivity|].
  destruct t as [|y u]; [reflexivity|].
  change (f x :: removelast (map f (y :: u)) = f x :: map f (removelast (y :: u))).
  rewrite IH. reflexivity.
Qed.

(** A 200 answer: the lines are gone through one by one. *)
Lemma get_plugins_by_lines :
  forall args client r w,
    client (url args ++ "_cat/plugins")%string = Ok r ->
    status_code r = 200%Z ->
    SwTest._get_plugins args client w =
    bind (for_each (map (split space) (plugin_lines (text r))) (record_plugin args))
      (fun _ => ret true) (requested w (url args ++ "_cat/plugins")%string).
Proof.
  intros args client r w Hc Hst. unfold SwTest._get_plugins.
  unfold bind at 1, send_request. rewrite Hc, Hst.
  change (negb (200 =? 200)%Z) with false. cbv iota. cbv zeta.
  unfold bind at 1, lift.
  fold newline. fold space.
  destruct (split newline (text r)) as [|l ls] eqn:E.
  { exfalso. exact (split_not_nil _ _ E). }
  cbn [map]. unfold plugin_lines. rewrite E.
  change (split space l :: map (split space) ls) with (map (split space) (l :: ls)).
  rewrite removelast_map. reflexivity.
Qed.

Lemma record_plugin_row :
  forall args row w,
    row_ok row = true ->
    record_plugin args (split space (row_text row)) w =
    (emit w [plugin_line args row] [plugin_node row], Ok tt).
Proof.
  intros args row w H. unfold record_plugin. cbv zeta.
  rewrite (row_fields row H). reflexivity.
Qed.

Lemma record_plugin_rows :
  forall args rows w,
    forallb row_ok rows = true ->
    for_each (map (split space) (map row_text rows)) (record_plugin args) w =
    (emit w (map (plugin_line args) rows) (map plugin_node rows), Ok tt).
Proof.
  intros args rows. induction rows as [|row t IH]; intros w H; simpl in *.
  - unfold ret. rewrite emit_nothing. reflexivity.
  - apply andb_prop in H. destruct H as [H1 H2].
    unfold bind. rewrite (record_plugin_row args row w H1), (IH _ H2), emit_emit.
    reflexivity.
Qed.

(** X11.  When /_cat/plugins answers 200 with a table of rows of three
    columns, padded with spaces, each row on its own line ended by a line
    break, [_get_plugins] records one [sw] node per row, with the first
    column as [es_node], the second as [name] and the third as [version],
    prints one line per row, and returns [True]; an empty table gives [True]
    with nothing recorded. *)
Theorem plugins_table_recorded :
  forall args client r rows w,
    client (url args ++ "_cat/plugins")%string = Ok r ->
    status_code r = 200%Z ->
    forallb row_ok rows = true ->
    text r = table_text rows ->
    SwTest._get_plugins args client w =
    (emit (requested w (url args ++ "_cat/plugins")%string)
       (map (plugin_line args) rows) (map plugin_node rows), Ok true).
Proof.
  intros args client r rows w Hc Hst Hrows Htext.
  rewrite (get_plugins_by_lines args client r w Hc Hst).
  unfold plugin_lines. rewrite Htext, (table_lines rows Hrows), removelast_last.
  unfold bind. rewrite (record_plugin_rows args rows _ Hrows). reflexivity.
Qed.

Lemma plugins_table_recorded_example :
  SwTest._get_plugins plain_args
    (always (mk_Response 200 [] (table_text two_plugins))) empty_world =
  (emit (requested empty_world "http://target:9200/_cat/plugins")
     (map (plugin_line plain_args) two_plugins) (map plugin_node two_plugins),
   Ok true).
Proof.
  apply (plugins_table_recorded plain_args
           (always (mk_Response 200 [] (table_text two_plugins)))
           (mk_Response 200 [] (table_text two_plugins)) two_plugins empty_world);
    reflexivity.
Defined.

Lemma removelast_split_tail :
  forall body tail,
    free_of newline tail = true ->
    removelast (split newline (body ++ String newline tail)) = split newline body.
Proof.
  intros body tail Htail. induction body as [|c t IH].
  - cbn [append split]. rewrite Ascii.eqb_refl, (split_free _ _ Htail). reflexivity.
  - cbn [append split].
    pose proof (split_not_nil newline (t ++ String newline tail)) as Hn.
    destruct (Ascii.eqb c newline).
    + destruct (split newline (t ++ String newline tail)) as [|h r] eqn:E;
        [contradiction|].
      change (EmptyString :: removelast (h :: r) = EmptyString :: split newline t).
      rewrite IH. reflexivity.
    + destruct (split newline (t ++ String newline tail)) as [|h r] eqn:E;
        [contradiction|].
      destruct r as [|h' r'].
      * exfalso. symmetry in IH. exact (split_not_nil _ _ IH).
      * change (removelast (h :: h' :: r')) with (h :: removelast (h' :: r')) in IH.
        rewrite <- IH. reflexivity.
Qed.

Lemma plugin_lines_tail :
  forall body tail,
    terminated body -> free_of newline tail = true ->
    plugin_lines (body ++ tail) = plugin_lines body.
Proof.
  intros body tail [->|[b ->]] Htail; unfold plugin_lines.
  - cbn [append]. rewrite (split_free _ _ Htail). reflexivity.
  - assert (E : ((b ++ String newline EmptyString) ++ tail)%string
                = (b ++ String newline tail)%string).
    { clear. induction b as [|c t IH]; simpl; [reflexivity | rewrite IH; reflexivity]. }
    rewrite E, (removelast_split_tail b tail Htail).
    rewrite (removelast_split_tail b EmptyString eq_refl). reflexivity.
Qed.

(** X12.  [_get_plugins] ignores what follows the last line break of the
    body: a last line that is not ended by a line break is neither recorded
    nor printed, and does not change the result. *)
Theorem plugins_unterminated_line_ignored :
  forall args client1 client2 r1 r2 body tail w,
    client1 (url args ++ "_cat/plugins")%string = Ok r1 ->
    client2 (url args ++ "_cat/plugins")%string = Ok r2 ->
    status_code r1 = 200%Z ->
    status_code r2 = 200%Z ->
    terminated body ->
    free_of newline tail = true ->
    text r1 = (body ++ tail)%string ->
    text r2 = body ->
    SwTest._get_plugins args client1 w = SwTest._get_plugins args client2 w.
Proof.
  intros args client1 client2 r1 r2 body tail w H1 H2 S1 S2 Hb Ht T1 T2.
  rewrite (get_plugins_by_lines args client1 r1 w H1 S1).
  rewrite (get_plugins_by_lines args client2 r2 w H2 S2).
  rewrite T1, T2, (plugin_lines_tail body tail Hb Ht). reflexivity.
Qed.

Lemma plugins_unterminated_line_example :
  SwTest._get_plugins plain_args
    (always (mk_Response 200 []
               (table_text two_plugins ++ "node-2 analysis-icu 8.1.0")))
    empty_world =
  SwTest._get_plugins plain_args
    (always (mk_Response 200 [] (table_text two_plugins))) empty_world.
Proof.
  apply (plugins_unterminated_line_ignored plain_args _ _
           (mk_Response 200 []
              (table_text two_plugins ++ "node-2 analysis-icu 8.1.0"))
           (mk_Response 200 [] (table_text two_plugins))
           (table_text two_plugins) "node-2 analysis-icu 8.1.0" empty_world);
    try reflexivity.
  right.
  exists ("node-1 analysis-icu    8.1.0 " ++ String newline "node-1 repository-s3   8.1.0 ")%string.
  reflexivity.
Defined.

(** * Properties of the version enumeration *)

(** X13.  [_get_es_version] records a node exactly when it returns [True]:
    either the request is answered 200 with a JSON document that holds
    version.number, name, cluster_name and version.lucene_version, and then
    it returns [True] having recorded one [sw] node with these four values;
    or it returns [False] or raises, and then it has recorded nothing. *)
Theorem es_version_recorded_iff_true :
  forall args client w,
    (exists r number name cluster lucene,
       client (url args) = Ok r /\
       es_document r number name cluster lucene /\
       snd (SwTest._get_es_version args client w) = Ok true /\
       nodes (world_after (SwTest._get_es_version args client) w) =
         (nodes w ++ [es_version_node number name cluster lucene])%list) \/
    (returned_true (SwTest._get_es_version args client) w = false /\
     nodes (world_after (SwTest._get_es_version args client) w) = nodes w).
Proof.
  intros args client w.
  unfold returned_true, world_after.
  destruct (SwTest._get_es_version args client w) as [w' res] eqn:E.
  cbn [fst snd]. unfold SwTest._get_es_version in E.
  unfold bind at 1, send_request in E.
  destruct (client (url args)) as [r|e] eqn:Hc;
    [|injection E as <- <-; right; split; reflexivity].
  destruct (status_code r =? 200)%Z eqn:Hst; cbn [negb] in E;
    [|injection E as <- <-; right; split; reflexivity].
  apply Z.eqb_eq in Hst.
  unfold bind at 1, lift in E.
  destruct (Response_json r) as [doc|e] eqn:Hdoc;
    [|injection E as <- <-; right; split; reflexivity].
  unfold bind at 1, try_except, bind, lift, rbind in E.
  destruct (getitem doc "version") as [version|e] eqn:Hv.
  2:{ destruct e; injection E as <- <-; right; split; reflexivity. }
  destruct (getitem version "number") as [number|e] eqn:Hn.
  2:{ destruct e; injection E as <- <-; right; split; reflexivity. }
  destruct (getitem doc "name") as [name|e] eqn:Hname.
  2:{ destruct e; injection E as <- <-; right; split; reflexivity. }
  destruct (getitem doc "cluster_name") as [cluster|e] eqn:Hcl.
  2:{ destruct e; injection E as <- <-; right; split; reflexivity. }
  destruct (getitem version "lucene_version") as [lucene|e] eqn:Hl.
  2:{ destruct e; injection E as <- <-; right; split; reflexivity. }
  injection E as <- <-.
  left. exists r, number, name, cluster, lucene.
  split; [reflexivity|]. split.
  - split; [exact Hst|]. exists doc, version. repeat split; assumption.
  - split; reflexivity.
Qed.



Lemma for_each_app :
  forall (A : Type) (xs ys : list A) (body : A -> M unit) w,
    for_each (xs ++ ys) body w =
    bind (for_each xs body) (fun _ => for_each ys body) w.
Proof.
  intros A xs ys body. induction xs as [|x t IH]; intros w; simpl.
  - reflexivity.
  - unfold bind. destruct (body x w) as [w1 [[]|e]]; [|reflexivity].
    rewrite IH. reflexivity.
Qed.

Lemma table_lines_app :
  forall rows rest,
    forallb row_ok rows = true ->
    split newline (table_text rows ++ rest) =
    (map row_text rows ++ split newline rest)%list.
Proof.
  induction rows as [|row t IH]; intros rest H; simpl in *.
  - reflexivity.
  - apply andb_prop in H. destruct H as [H1 H2].
    assert (E : ((row_text row ++ String newline (table_text t)) ++ rest)%string
                = (row_text row ++ String newline (table_text t ++ rest))%string).
    { generalize (row_text row). clear. intros s.
      induction s as [|c u IH]; simpl; [reflexivity | rewrite IH; reflexivity]. }
    rewrite E, (split_app newline _ _ (row_text_one_line row H1)), (IH _ H2).
    reflexivity.
Qed.

Lemma record_plugin_short :
  forall args line w,
    List.length (filter (fun s => negb (String.eqb s EmptyString)) line) < 3 ->
    record_plugin args line w = (w, Raise IndexError).
Proof.
  intros args line w H. unfold record_plugin. cbv zeta.
  destruct (filter (fun s => negb (String.eqb s EmptyString)) line)
    as [|a [|b [|c t]]]; simpl in H; try lia; reflexivity.
Qed.

(** X15.  A line of fewer than three columns in the plugin table (a blank
    line, say) makes [_get_plugins] raise [IndexError]: the rows before it
    stay recorded and printed, and what follows it is not read. *)
Theorem plugins_short_line_raises :
  forall args client r rows short rest w,
    client (url args ++ "_cat/plugins")%string = Ok r ->
    status_code r = 200%Z ->
    forallb row_ok rows = true ->
    free_of newline short = true ->
    List.length (filter (fun s => negb (String.eqb s EmptyString))
                   (split space short)) < 3 ->
    text r = (table_text rows ++ short ++ String newline rest)%string ->
    SwTest._get_plugins args client w =
    (emit (requested w (url args ++ "_cat/plugins")%string)
       (map (plugin_line args) rows) (map plugin_node rows), Raise IndexError).
Proof.
  intros args client r rows short rest w Hc Hst Hrows Hshort Hlen Htext.
  rewrite (get_plugins_by_lines args client r w Hc Hst).
  unfold plugin_lines.
  rewrite Htext, (table_lines_app rows _ Hrows), (split_app newline _ _ Hshort).
  pose proof (split_not_nil newline rest) as Hn.
  destruct (split newline rest) as [|l ls] eqn:E; [contradiction|].
  rewrite removelast_app by discriminate.
  change (removelast (short :: l :: ls)) with (short :: removelast (l :: ls)).
  rewrite map_app. unfold bind at 1. rewrite for_each_app.
  unfold bind at 1. rewrite (record_plugin_rows args rows _ Hrows).
  cbn [map for_each]. unfold bind at 1.
  rewrite (record_plugin_short args _ _ Hlen). reflexivity.
Qed.

Lemma plugins_short_line_example :
  SwTest._get_plugins plain_args
    (always (mk_Response 200 []
               (table_text two_plugins ++ EmptyString ++
                String newline "node-2 analysis-icu 8.1.0")))
    empty_world =
  (emit (requested empty_world "http://target:9200/_cat/plugins")
     (map (plugin_line plain_args) two_plugins) (map plugin_node two_plugins),
   Raise IndexError).
Proof.
  apply (plugins_short_line_raises plain_args _
           (mk_Response 200 []
              (table_text two_plugins ++ EmptyString ++
               String newline "node-2 analysis-icu 8.1.0"))
           two_plugins EmptyString "node-2 analysis-icu 8.1.0" empty_world);
    try reflexivity.
  simpl. lia.
Defined.

(** * The modules of the nodes *)

Lemma record_module_ok :
  forall args m w,
    module_ok m ->
    record_module args (module_value m) w =
    (emit w [module_line args m] [module_node m], Ok tt).
Proof.
  intros args m w (Hn & Hv & Hd). unfold record_module.
  unfold bind at 1, lift. rewrite Hn.
  unfold bind at 1. rewrite Hv.
  unfold bind at 1. rewrite Hd.
  reflexivity.
Qed.

Lemma record_modules_ok :
  forall args ms w,
    Forall module_ok ms ->
    for_each (map module_value ms) (record_module args) w =
    (emit w (map (module_line args) ms) (map module_node ms), Ok tt).
Proof.
  intros args ms. induction ms as [|m t IH]; intros w H; simpl.
  - unfold ret. rewrite emit_nothing. reflexivity.
  - inversion H as [|? ? Hm Ht]; subst.
    unfold bind. rewrite (record_module_ok args m w Hm), (IH _ Ht), emit_emit.
    reflexivity.
Qed.

(** A 200 answer that decodes: the nodes are gone through one by one. *)
Lemma get_modules_by_nodes :
  forall args client r doc w,
    client (url args ++ "_nodes")%string = Ok r ->
    status_code r = 200%Z ->
    Response_json r = Ok doc ->
    SwTest._get_modules args client w =
    bind (lift (rbind (getitem doc "nodes") keys))
      (fun nodes =>
         bind (for_each nodes (record_node_modules args doc))
           (fun _ => ret true))
      (requested w (url args ++ "_nodes")%string).
Proof.
  intros args client r doc w Hc Hst Hdoc. unfold SwTest._get_modules.
  unfold bind at 1, send_request. rewrite Hc, Hst.
  change (negb (200 =? 200)%Z) with false. cbv iota.
  unfold bind at 1. unfold lift at 1. rewrite Hdoc. reflexivity.
Qed.

Lemma record_nodes_ok :
  forall args doc ns per_node w,
    getitem doc "nodes" = Ok (VDict ns) ->
    Forall (node_ok ns) per_node ->
    for_each (map (fun k => VStr k) (map fst per_node))
      (record_node_modules args doc) w =
    (emit w (map (module_line args) (all_modules per_node))
       (map module_node (all_modules per_node)), Ok tt).
Proof.
  intros args doc ns per_node w Hdoc.
  revert w. induction per_node as [|[k ms] t IH]; intros w H.
  - simpl. unfold ret. rewrite emit_nothing. reflexivity.
  - inversion H as [|? ? Hk Ht]; subst. destruct Hk as (n & Hn & Hm & Hok).
    cbn [fst snd] in Hn, Hm, Hok.
    cbn [map fst for_each]. unfold bind at 1.
    unfold record_node_modules at 1.
    unfold bind at 1. unfold lift at 1.
    rewrite Hdoc. cbn [rbind getitem]. rewrite Hn. cbn [rbind]. rewrite Hm.
    unfold bind at 1. unfold lift at 1. cbn [iterate].
    rewrite (record_modules_ok args ms w Hok).
    rewrite (IH _ Ht), emit_emit.
    unfold all_modules. cbn [map snd concat]. rewrite !map_app. reflexivity.
Qed.

(** X16.  When /_nodes answers 200 with a document whose [nodes] object
    lists, for every node, a list of modules that each have a name, a
    version and a description, [_get_modules] records one [sw] node per
    module and prints one line per module, node after node in the order of
    the document, and returns [True]; it returns [True] as well when no node
    has a module. *)
Theorem modules_recorded :
  forall args client r doc ns per_node w,
    client (url args ++ "_nodes")%string = Ok r ->
    status_code r = 200%Z ->
    Response_json r = Ok doc ->
    getitem doc "nodes" = Ok (VDict ns) ->
    map fst ns = map fst per_node ->
    Forall (node_ok ns) per_node ->
    SwTest._get_modules args client w =
    (emit (requested w (url args ++ "_nodes")%string)
       (map (module_line args) (all_modules per_node))
       (map module_node (all_modules per_node)), Ok true).
Proof.
  intros args client r doc ns per_node w Hc Hst Hdoc Hns Hkeys Hok.
  rewrite (get_modules_by_nodes args client r doc w Hc Hst Hdoc).
  unfold bind at 1. unfold lift at 1. rewrite Hns. cbn [rbind keys].
  rewrite <- (map_map fst (fun k => VStr k)), Hkeys.
  unfold bind at 1.
  rewrite (record_nodes_ok args doc ns per_node _ Hns Hok). reflexivity.
Qed.

Lemma modules_recorded_example :
  SwTest._get_modules plain_args (always two_nodes) empty_world =
  (emit (requested empty_world "http://target:9200/_nodes")
     (map (module_line plain_args) [aggregations_module; core_module])
     (map module_node [aggregations_module; core_module]), Ok true).
Proof.
  refine (modules_recorded plain_args (always two_nodes) two_nodes _ _
            [("a1", [aggregations_module; core_module]); ("b2", [])]
            empty_world _ _ _ _ _ _).
  - reflexivity.
  - reflexivity.
  - vm_compute. reflexivity.
  - vm_compute. reflexivity.
  - reflexivity.
  - repeat constructor.
    + eexists. split; [reflexivity|]. split; [reflexivity|].
      repeat constructor.
    + eexists. split; [reflexivity|]. split; [reflexivity|]. constructor.
Defined.

(** * The roles endpoint of the user enumeration *)

(** X17.  [Users.run] decodes the body of the /_security/role answer for
    every user, whatever the status of that answer: when the body is not
    JSON and the user document has a first user, the run raises
    [JSONDecodeError] after two requests, with the node of the first user
    recorded and nothing printed. *)
Theorem role_body_not_json_raises :
  forall args client ru rr users un em roles w,
    client (url args ++ "_security/user")%string = Ok ru ->
    status_code ru = 200%Z ->
    Response_json ru = Ok users ->
    first_user users un em roles ->
    client (url args ++ "_security/role")%string = Ok rr ->
    Response_json rr = Raise JSONDecodeError ->
    Users.run args client w =
    (mk_world (printed w)
       (requests w ++ [(url args ++ "_security/user")%string;
                       (url args ++ "_security/role")%string])
       (nodes w ++ [mk_node "user" (UserProps (List.length (heap w)))])
       (vulnerabilities w)
       (heap w ++ [mk_user un em roles]),
     Raise JSONDecodeError).
Proof.
  intros args client ru rr users un em roles w Hu Hst Hdoc Hfirst Hr Hbad.
  destruct Hfirst as (k & user & rest & rs & names & -> & Hrs & Hit & Hd & Hun & Hem).
  unfold Users.run.
  unfold bind at 1, send_request. rewrite Hu, Hst.
  change (negb (200 =? 200)%Z) with false. cbv iota.
  unfold bind at 1. unfold lift at 1. rewrite Hdoc.
  unfold bind at 1. cbn [requests printed nodes vulnerabilities heap].
  rewrite Hr. cbv zeta.
  unfold bind at 1. unfold lift at 1. cbn [iterate map fst for_each].
  unfold bind at 1. unfold Users.enumerate_user.
  unfold bind at 1. unfold lift at 1.
  cbn [hash_key rbind subscript getitem dict_get]. rewrite String.eqb_refl.
  unfold bind at 1. unfold lift at 1. rewrite Hrs. cbn [rbind]. rewrite Hit.
  cbn [rbind]. rewrite Hd.
  unfold bind at 1. unfold lift at 1. rewrite Hun.
  unfold bind at 1. unfold lift at 1. rewrite Hem.
  unfold bind at 1. unfold new_user_properties.
  cbn [requests printed nodes vulnerabilities heap].
  unfold bind at 1. unfold add_node.
  cbn [requests printed nodes vulnerabilities heap].
  unfold bind at 1. unfold lift at 1. rewrite Hbad.
  rewrite <- app_assoc. reflexivity.
Qed.

Lemma role_body_not_json_example :
  Users.run plain_args roles_forbidden empty_world =
  (mk_world [] ["http://target:9200/_security/user";
                "http://target:9200/_security/role"]
     [mk_node "user" (UserProps 0)] []
     [mk_user (VStr "elastic") VNone [(HStr "superuser", [])]],
   Raise JSONDecodeError).
Proof.
  refine (role_body_not_json_raises plain_args roles_forbidden _ _ _
            (VStr "elastic") VNone [(HStr "superuser", [])] empty_world
            _ _ _ _ _ _).
  - reflexivity.
  - reflexivity.
  - vm_compute. reflexivity.
  - do 5 eexists. repeat split; reflexivity.
  - reflexivity.
  - vm_compute. reflexivity.
Defined.

(** * Properties of the authentication probe *)

Lemma prefix_shorter :
  forall p q s, String.prefix (p ++ q) s = true -> String.prefix p s = true.
Proof.
  induction p as [|c p IH]; intros q s H.
  - destruct s; reflexivity.
  - destruct s as [|c' s]; simpl in *; [discriminate|].
    destruct (ascii_dec c c'); [eapply IH; exact H | discriminate].
Qed.

Lemma contains_shorter :
  forall p q s, contains (p ++ q) s = true -> contains p s = true.
Proof.
  intros p q s. induction s as [|c s IH]; cbn [contains]; intros H.
  - destruct (String.prefix (p ++ q) EmptyString) eqn:E; [|discriminate].
    rewrite (prefix_shorter _ _ _ E). reflexivity.
  - destruct (String.prefix (p ++ q) (String c s)) eqn:E.
    + rewrite (prefix_shorter _ _ _ E). reflexivity.
    + rewrite (IH H). destruct (String.prefix p (String c s)); reflexivity.
Qed.

(** The second test of line 47 never decides: a name with [anonymous] in it
    has [anon] in it. *)
Lemma anonymous_has_anon :
  forall s, contains "anon" s = false -> contains "anonymous" s = false.
Proof.
  intros s H. destruct (contains "anonymous" s) eqn:E; [|reflexivity].
  change "anonymous" with ("anon" ++ "ymous")%string in E.
  rewrite (contains_shorter _ _ _ E) in H. discriminate.
Qed.

Lemma find_dict_get :
  forall (d : list (string * value)) name user,
    find anonymous_name d = Some (name, user) -> dict_get d name = Some user.
Proof.
  induction d as [|[k v] t IH]; intros name user H; cbn [find dict_get] in *.
  - discriminate.
  - destruct (anonymous_name (k, v)) eqn:E.
    + injection H as -> ->. rewrite String.eqb_refl. reflexivity.
    + destruct (String.eqb k name) eqn:K.
      * apply String.eqb_eq in K. subst k.
        apply find_some in H. destruct H as [_ H].
        unfold anonymous_name in *. cbn [fst] in *. congruence.
      * apply IH. exact H.
Qed.

Lemma users_lookup :
  forall d k user,
    dict_get d k = Some user ->
    rbind (hash_key (VStr k)) (subscript (VDict d)) = Ok user.
Proof. intros d k user H. simpl. rewrite H. reflexivity. Qed.

Lemma emit_lines :
  forall w lines,
    emit w lines [] =
    mk_world (printed w ++ lines) (requests w) (nodes w) (vulnerabilities w)
      (heap w).
Proof. intros w lines. unfold emit. rewrite app_nil_r. reflexivity. Qed.

Lemma anon_loop_found :
  forall args d d' name user rs roles w,
    find anonymous_name d' = Some (name, user) ->
    dict_get d name = Some user ->
    getitem user "roles" = Ok rs ->
    join ", " rs = Ok roles ->
    Auth.anon_loop args (VDict d) (map (fun kv => VStr (fst kv)) d') w =
    (emit w [anon_role_line args roles] [], Ok true).
Proof.
  intros args d d' name user rs roles w Hfind Hget Hrs Hjoin.
  induction d' as [|[k v] t IH]; cbn [find] in Hfind; [discriminate|].
  cbn [map fst Auth.anon_loop]. unfold bind at 1. unfold lift at 1. cbn [is_in].
  unfold anonymous_name in Hfind at 1. cbn [fst] in Hfind.
  destruct (contains "anon" k) eqn:E.
  - injection Hfind as -> ->.
    unfold bind at 1. unfold ret at 1.
    unfold bind at 1. unfold lift at 1.
    rewrite (users_lookup _ _ _ Hget). cbn [rbind]. rewrite Hrs. cbn [rbind].
    rewrite Hjoin. rewrite emit_lines. reflexivity.
  - unfold bind at 1. unfold lift at 1. cbn [is_in].
    rewrite (anonymous_has_anon _ E). apply IH. exact Hfind.
Qed.

Lemma anon_loop_none :
  forall args users d w,
    forallb (fun kv => negb (anonymous_name kv)) d = true ->
    Auth.anon_loop args users (map (fun kv => VStr (fst kv)) d) w =
    (w, Ok false).
Proof.
  intros args users d w. induction d as [|[k v] t IH]; intros H.
  - reflexivity.
  - cbn [forallb] in H. apply andb_prop in H. destruct H as [H1 H2].
    unfold anonymous_name in H1. cbn [fst] in H1.
    apply negb_true_iff in H1.
    cbn [map fst Auth.anon_loop]. unfold bind at 1. unfold lift at 1.
    cbn [is_in]. rewrite H1.
    unfold bind at 1. unfold lift at 1. cbn [is_in].
    rewrite (anonymous_has_anon _ H1). apply IH. exact H2.
Qed.

Lemma join_strings_names :
  forall sep (names : list string),
    join_strings sep (map (fun k => VStr k) names) =
    Ok (String.concat sep names).
Proof.
  intros sep names. induction names as [|x t IH]; [reflexivity|].
  destruct t as [|y t]; [reflexivity|].
  change (join_strings sep (map (fun k => VStr k) (x :: y :: t)))
    with (rbind (join_strings sep (map (fun k => VStr k) (y :: t)))
            (fun r => Ok (x ++ sep ++ r)%string)).
  rewrite IH. reflexivity.
Qed.

(** A 200 answer that decodes to an object: the names are gone through. *)
Lemma print_anon_role_answered :
  forall end_error args client r d w,
    client (url args ++ "_security/user")%string = Ok r ->
    status_code r = 200%Z ->
    Response_json r = Ok (VDict d) ->
    Auth._print_anon_role end_error args client w =
    bind (Auth.anon_loop args (VDict d) (map (fun kv => VStr (fst kv)) d))
      (fun returned =>
         if returned then ret tt
         else
           all <- lift (join_strings "," (map (fun kv => VStr (fst kv)) d)) ;;
           ptprint [Lit "Could not find username which would match 'anonymous' or 'anon' All users: ";
                    FVal (VStr all)]
             "ERROR" (negb (json args)) false 4)
      (requested w (url args ++ "_security/user")%string).
Proof.
  intros end_error args client r d w Hc Hst Hdoc. unfold Auth._print_anon_role.
  unfold bind at 1, send_request. rewrite Hc, Hst.
  change (negb (200 =? 200)%Z) with false. cbv iota.
  unfold bind at 1. unfold ret at 1.
  unfold bind at 1. unfold lift at 1. rewrite Hdoc.
  reflexivity.
Qed.

(** X18.  When /_security/user answers 200 with an object, the role line of
    [_print_anon_role] is about the first user of the document whose name
    has [anon] in it: the roles of that user are printed, joined by a comma
    and a space, in one INFO line, and nothing else is printed. *)
Theorem anon_role_reported :
  forall end_error args client r d name user rs roles w,
    client (url args ++ "_security/user")%string = Ok r ->
    status_code r = 200%Z ->
    Response_json r = Ok (VDict d) ->
    find anonymous_name d = Some (name, user) ->
    getitem user "roles" = Ok rs ->
    join ", " rs = Ok roles ->
    Auth._print_anon_role end_error args client w =
    (emit (requested w (url args ++ "_security/user")%string)
       [anon_role_line args roles] [], Ok tt).
Proof.
  intros end_error args client r d name user rs roles w Hc Hst Hdoc Hfind Hrs Hjoin.
  rewrite (print_anon_role_answered end_error args client r d w Hc Hst Hdoc).
  unfold bind at 1.
  rewrite (anon_loop_found args d d name user rs roles _ Hfind
             (find_dict_get d name user Hfind) Hrs Hjoin).
  reflexivity.
Qed.

Lemma anon_role_reported_example :
  Auth._print_anon_role end_error_unused plain_args
    (always users_with_anonymous) empty_world =
  (emit (requested empty_world "http://target:9200/_security/user")
     [anon_role_line plain_args "viewer, monitoring_user"] [], Ok tt).
Proof.
  refine (anon_role_reported end_error_unused plain_args
            (always users_with_anonymous) users_with_anonymous _
            "_anonymous" _ _ "viewer, monitoring_user" empty_world
            _ _ _ _ _ _).
  - reflexivity.
  - reflexivity.
  - vm_compute. reflexivity.
  - vm_compute. reflexivity.
  - vm_compute. reflexivity.
  - vm_compute. reflexivity.
Defined.

(** X19.  When /_security/user answers 200 with an object in which no name
    has [anon] in it, [_print_anon_role] prints one ERROR line that lists
    all the names, joined by commas, and nothing else. *)
Theorem anon_role_not_found :
  forall end_error args client r d w,
    client (url args ++ "_security/user")%string = Ok r ->
    status_code r = 200%Z ->
    Response_json r = Ok (VDict d) ->
    forallb (fun kv => negb (anonymous_name kv)) d = true ->
    Auth._print_anon_role end_error args client w =
    (emit (requested w (url args ++ "_security/user")%string)
       [no_anon_line args (map fst d)] [], Ok tt).
Proof.
  intros end_error args client r d w Hc Hst Hdoc Hnone.
  rewrite (print_anon_role_answered end_error args client r d w Hc Hst Hdoc).
  unfold bind at 1. rewrite (anon_loop_none args (VDict d) d _ Hnone).
  unfold bind at 1. unfold lift at 1.
  rewrite <- (map_map fst (fun k => VStr k)), join_strings_names.
  rewrite emit_lines. reflexivity.
Qed.

Lemma anon_role_not_found_example :
  Auth._print_anon_role end_error_unused plain_args
    (always users_without_anonymous) empty_world =
  (emit (requested empty_world "http://target:9200/_security/user")
     [no_anon_line plain_args ["elastic"; "kibana"]] [], Ok tt).
Proof.
  refine (anon_role_not_found end_error_unused plain_args
            (always users_without_anonymous) users_without_anonymous
            [("elastic", _); ("kibana", _)] empty_world _ _ _ _).
  - reflexivity.
  - reflexivity.
  - vm_compute. reflexivity.
  - reflexivity.
Defined.

Lemma prints_only_refl : forall w, prints_only w w.
Proof. intros w. exists []. rewrite emit_nothing. reflexivity. Qed.

Lemma prints_only_trans :
  forall a b c, prints_only a b -> prints_only b c -> prints_only a c.
Proof.
  intros a b c [l1 ->] [l2 ->]. exists (l1 ++ l2)%list.
  rewrite emit_emit. reflexivity.
Qed.

Lemma prints_only_ptprint :
  forall msg bullet cond color ind,
    respects prints_only (ptprint msg bullet cond color ind).
Proof.
  intros msg bullet cond color ind w.
  exists [mk_ptprint msg bullet cond color ind].
  rewrite emit_lines. reflexivity.
Qed.

Lemma prints_only_anon_loop :
  forall args users names,
    respects prints_only (Auth.anon_loop args users names).
Proof.
  intros args users names. induction names as [|user t IH]; cbn [Auth.anon_loop].
  - apply (respects_ret _ prints_only_refl).
  - frame prints_only_refl prints_only_trans
      ltac:(first [apply prints_only_ptprint | exact IH]).
Qed.

(** With a 200 answer, [_print_anon_role] makes its request and prints. *)
Lemma print_anon_role_prints :
  forall end_error args client r w,
    client (url args ++ "_security/user")%string = Ok r ->
    status_code r = 200%Z ->
    prints_only (requested w (url args ++ "_security/user")%string)
      (world_after (Auth._print_anon_role end_error args client) w).
Proof.
  intros end_error args client r w Hc Hst.
  unfold world_after, Auth._print_anon_role.
  unfold bind at 1, send_request. rewrite Hc, Hst.
  change (negb (200 =? 200)%Z) with false. cbv iota.
  unfold bind at 1. unfold ret at 1.
  match goal with
  | |- prints_only _ (fst (?m ?w1)) =>
      cut (respects prints_only m); [intros Hr; exact (Hr w1)|]
  end.
  frame prints_only_refl prints_only_trans
    ltac:(first [apply prints_only_ptprint | apply prints_only_anon_loop]).
Qed.

(** A 200 answer of the root: the probe goes on to [_test_anon_auth]. *)
Lemma auth_run_answered :
  forall end_error add_properties args client r w,
    client (url args) = Ok r ->
    status_code r = 200%Z ->
    Auth.run end_error add_properties args client w =
    Auth._test_anon_auth end_error add_properties args client
      (emit (requested w (url args)) (preamble args r) []).
Proof.
  intros end_error add_properties args client r w Hc Hst.
  unfold Auth.run. unfold bind at 1, send_request. rewrite Hc, Hst.
  change ((200 =? 401)%Z) with false. change ((200 =? 200)%Z) with true.
  cbv iota. unfold preamble, requested. rewrite emit_lines.
  cbn [printed requests nodes vulnerabilities heap].
  destruct (verbose args).
  - rewrite Hst. unfold bind, ptprint.
    cbn [printed requests nodes vulnerabilities heap].
    rewrite <- app_assoc. reflexivity.
  - unfold bind, ret. rewrite app_nil_r. reflexivity.
Qed.

(** A 200 answer of /_xpack that tells whether security is enabled. *)
Lemma test_anon_auth_answered :
  forall end_error add_properties args client r enabled w,
    client (url args ++ "_xpack?filter_path=features.security")%string = Ok r ->
    status_code r = 200%Z ->
    security_enabled r enabled ->
    Auth._test_anon_auth end_error add_properties args client w =
    (if negb (truthy enabled) then
       ptprint [Lit "Authentication is disabled"]
         "VULN" (negb (json args)) false 4 ;;;
       add_vulnerability "PTV-WEB-ELASTIC-AUTH" ;;;
       add_properties [("authentication", VStr "disabled")]
     else
       ptprint [Lit "Authentication is enabled, but anonymous access is allowed"]
         "VULN" (negb (json args)) false 4 ;;;
       Auth._print_anon_role end_error args client)
      (requested w (url args ++ "_xpack?filter_path=features.security")%string).
Proof.
  intros end_error add_properties args client r enabled w Hc Hst
    (security & Hdoc & Hen).
  unfold Auth._test_anon_auth.
  unfold bind at 1, send_request. rewrite Hc, Hst.
  change (negb (200 =? 200)%Z) with false. cbv iota.
  unfold bind at 1. unfold ret at 1.
  unfold bind at 1. unfold lift at 1. rewrite Hdoc.
  unfold bind at 1. unfold lift at 1. rewrite Hen.
  reflexivity.
Qed.

(** X20.  When the root and /_xpack answer 200 and security is not enabled,
    [Auth.run] makes these two requests, prints the VULN line on disabled
    authentication after its verbose lines, records the vulnerability
    PTV-WEB-ELASTIC-AUTH, and ends with the call of [add_properties]; it
    does not ask for the users. *)
Theorem disabled_authentication_recorded :
  forall end_error add_properties args client r0 r1 enabled w,
    client (url args) = Ok r0 ->
    status_code r0 = 200%Z ->
    client (url args ++ "_xpack?filter_path=features.security")%string = Ok r1 ->
    status_code r1 = 200%Z ->
    security_enabled r1 enabled ->
    truthy enabled = false ->
    Auth.run end_error add_properties args client w =
    add_properties [("authentication", VStr "disabled")]
      (mk_world (printed w ++ preamble args r0 ++ [auth_disabled_line args])
         (requests w ++
            [url args;
             (url args ++ "_xpack?filter_path=features.security")%string])
         (nodes w) (vulnerabilities w ++ ["PTV-WEB-ELASTIC-AUTH"]) (heap w)).
Proof.
  intros end_error add_properties args client r0 r1 enabled w
    Hc0 Hst0 Hc1 Hst1 Hen Hfalse.
  rewrite (auth_run_answered end_error add_properties args client r0 w Hc0 Hst0).
  rewrite (test_anon_auth_answered end_error add_properties args client r1
             enabled _ Hc1 Hst1 Hen).
  rewrite Hfalse. cbn [negb].
  unfold bind, ptprint, add_vulnerability, requested. rewrite emit_lines.
  cbn [printed requests nodes vulnerabilities heap].
  rewrite <- !app_assoc. reflexivity.
Qed.

Lemma disabled_authentication_example :
  Auth.run end_error_unused add_properties_unused plain_args open_cluster
    empty_world =
  (mk_world [auth_disabled_line plain_args]
     ["http://target:9200/";
      "http://target:9200/_xpack?filter_path=features.security"]
     [] ["PTV-WEB-ELASTIC-AUTH"] [], Ok tt).
Proof.
  refine (disabled_authentication_recorded end_error_unused
            add_properties_unused plain_args open_cluster scenario_B
            security_off (VBool false) empty_world _ _ _ _ _ _).
  - reflexivity.
  - reflexivity.
  - reflexivity.
  - reflexivity.
  - eexists. split; vm_compute; reflexivity.
  - reflexivity.
Defined.

(** X21.  When the root, /_xpack and /_security/user answer 200 and security
    is enabled, [Auth.run] makes these three requests in this order and
    prints, after its verbose lines, the VULN line on anonymous access and
    then whatever [_print_anon_role] prints; it records no vulnerability and
    no node, although the line is printed as a vulnerability. *)
Theorem anonymous_access_not_recorded :
  forall end_error add_properties args client r0 r1 r2 enabled w,
    client (url args) = Ok r0 ->
    status_code r0 = 200%Z ->
    client (url args ++ "_xpack?filter_path=features.security")%string = Ok r1 ->
    status_code r1 = 200%Z ->
    security_enabled r1 enabled ->
    truthy enabled = true ->
    client (url args ++ "_security/user")%string = Ok r2 ->
    status_code r2 = 200%Z ->
    exists lines,
      world_after (Auth.run end_error add_properties args client) w =
      mk_world
        (printed w ++ preamble args r0 ++ anon_allowed_line args :: lines)
        (requests w ++
           [url args;
            (url args ++ "_xpack?filter_path=features.security")%string;
            (url args ++ "_security/user")%string])
        (nodes w) (vulnerabilities w) (heap w).
Proof.
  intros end_error add_properties args client r0 r1 r2 enabled w
    Hc0 Hst0 Hc1 Hst1 Hen Htrue Hc2 Hst2.
  unfold world_after.
  rewrite (auth_run_answered end_error add_properties args client r0 w Hc0 Hst0).
  rewrite (test_anon_auth_answered end_error add_properties args client r1
             enabled _ Hc1 Hst1 Hen).
  rewrite Htrue. cbn [negb].
  unfold bind at 1. unfold ptprint at 1.
  destruct (print_anon_role_prints end_error args client r2
              (mk_world
                 (printed (requested (emit (requested w (url args))
                    (preamble args r0) [])
                    (url args ++ "_xpack?filter_path=features.security")%string)
                  ++ [anon_allowed_line args])
                 (requests (requested (emit (requested w (url args))
                    (preamble args r0) [])
                    (url args ++ "_xpack?filter_path=features.security")%string))
                 (nodes (requested (emit (requested w (url args))
                    (preamble args r0) [])
                    (url args ++ "_xpack?filter_path=features.security")%string))
                 (vulnerabilities (requested (emit (requested w (url args))
                    (preamble args r0) [])
                    (url args ++ "_xpack?filter_path=features.security")%string))
                 (heap (requested (emit (requested w (url args))
                    (preamble args r0) [])
                    (url args ++ "_xpack?filter_path=features.security")%string)))
              Hc2 Hst2) as [lines H].
  exists lines. unfold world_after in H. unfold anon_allowed_line in *.
  rewrite H. unfold requested. rewrite !emit_lines.
  cbn [printed requests nodes vulnerabilities heap].
  rewrite <- !app_assoc. reflexivity.
Qed.

Lemma anonymous_access_example :
  exists lines,
    world_after
      (Auth.run end_error_unused add_properties_unused plain_args
         anonymous_cluster) empty_world =
    mk_world (anon_allowed_line plain_args :: lines)
      ["http://target:9200/";
       "http://target:9200/_xpack?filter_path=features.security";
       "http://target:9200/_security/user"] [] [] [].
Proof.
  refine (anonymous_access_not_recorded end_error_unused add_properties_unused
            plain_args anonymous_cluster scenario_B security_on
            users_with_anonymous (VBool true) empty_world _ _ _ _ _ _ _ _).
  - reflexivity.
  - reflexivity.
  - reflexivity.
  - reflexivity.
  - eexists. split; vm_compute; reflexivity.
  - reflexivity.
  - reflexivity.
  - reflexivity.
Defined.
